(** * FAC CLI: a shallow embedding of the command line tool and its contract

    The Python sources are embedded module by module ([config], [airtable],
    [gr], [display], [fac]).  Python values are an inductive type, a record
    (a [dict] with string keys) is a [gmap string value], and code that
    prints, reads the environment or exits runs in a small monad over a
    [world] that carries the process environment and the trace of
    observable events.

    A character of a Python string is one [ascii] here, a code point
    below 256; the symbols of the fixed console prefixes lie beyond that
    and are written as their UTF-8 bytes, as the terminal receives them. *)

From Stdlib Require Import ZArith Ascii.
From stdpp Require Import gmap strings list fin_maps pretty.

Local Open Scope Z_scope.

(* ===================================================================== *)
(** ** Python string primitives *)
(* ===================================================================== *)

Module PyStr.

(** [len(s)] *)
Definition len (s : string) : nat := String.length s.

(** [s.startswith(p)] *)
Fixpoint startswith (s p : string) {struct p} : bool :=
  match p, s with
  | EmptyString, _ => true
  | String _ _, EmptyString => false
  | String a p', String b s' => if Ascii.eqb a b then startswith s' p' else false
  end.

(** [s[::-1]] *)
Fixpoint rev (s : string) : string :=
  match s with
  | EmptyString => EmptyString
  | String c s' => rev s' +:+ String c EmptyString
  end.

(** [s.endswith(p)] *)
Definition endswith (s p : string) : bool := startswith (rev s) (rev p).

(** [s[:n]] for a non-negative literal [n] *)
Fixpoint take (n : nat) (s : string) : string :=
  match n, s with
  | S k, String c s' => String c (take k s')
  | _, _ => EmptyString
  end.

(** [s[n:]] for a non-negative literal [n] *)
Fixpoint drop (n : nat) (s : string) : string :=
  match n, s with
  | S k, String _ s' => drop k s'
  | _, _ => s
  end.

(** [s.split(sep)] for a separator of one character: every occurrence
    cuts, so the result has one more element than there are separators
    and may hold empty strings. *)
Fixpoint split (sep : ascii) (s : string) : list string :=
  match s with
  | EmptyString => [EmptyString]
  | String c s' =>
      if Ascii.eqb c sep then EmptyString :: split sep s'
      else match split sep s' with
           | p :: ps => String c p :: ps
           | [] => [String c EmptyString]
           end
  end.

(** The scan of [s.replace(old, new)] for a non-empty [old]: left to
    right, every non-overlapping occurrence of [old] is replaced.  [skip]
    counts the characters of a matched occurrence still to be passed. *)
Fixpoint replace_from (old new : string) (skip : nat) (s : string) : string :=
  match s with
  | EmptyString => EmptyString
  | String c s' =>
      match skip with
      | S k => replace_from old new k s'
      | O =>
          if startswith s old
          then new +:+ replace_from old new (len old - 1) s'
          else String c (replace_from old new 0 s')
      end
  end.

(** With an empty [old], Python puts [new] around every character. *)
Fixpoint intersperse (new s : string) : string :=
  match s with
  | EmptyString => new
  | String c s' => new +:+ String c (intersperse new s')
  end.

(** [s.replace(old, new)] *)
Definition replace (s old new : string) : string :=
  match old with
  | EmptyString => intersperse new s
  | String _ _ => replace_from old new 0 s
  end.

(** [str.isspace] on one character *)
Definition isspace (c : ascii) : bool :=
  let n := nat_of_ascii c in
  ((9 <=? n)%nat && (n <=? 13)%nat) || ((28 <=? n)%nat && (n <=? 32)%nat)
  || (n =? 133)%nat || (n =? 160)%nat.

Fixpoint lstrip (s : string) : string :=
  match s with
  | EmptyString => EmptyString
  | String c s' => if isspace c then lstrip s' else s
  end.

(** [s.strip()] *)
Definition strip (s : string) : string :=
  rev (lstrip (rev (lstrip s))).

(** [s.lower()]: the capital letters below code point 256 *)
Definition lower_char (c : ascii) : ascii :=
  let n := nat_of_ascii c in
  if ((65 <=? n)%nat && (n <=? 90)%nat)
     || ((192 <=? n)%nat && (n <=? 222)%nat && negb (n =? 215)%nat)
  then ascii_of_nat (n + 32) else c.

Fixpoint lower (s : string) : string :=
  match s with
  | EmptyString => EmptyString
  | String c s' => String (lower_char c) (lower s')
  end.

(** [str(n)] for an integer *)
Definition of_nat (n : nat) : string := pretty n.
Definition of_Z (n : Z) : string := pretty n.

End PyStr.

(* ===================================================================== *)
(** ** The process: environment, output streams, exceptions *)
(* ===================================================================== *)

Inductive stream := Stdout | Stderr.

(** What an observer of the process can see, in order. *)
Inductive event :=
| Output (f : stream) (text : string)  (* print(text, file=f) *)
| LoadDotenv                           (* load_dotenv() *)
| Getenv (key : string).               (* os.getenv(key, ...) *)

(** The exceptions the sources raise or catch.  [SystemExit] and
    [KeyboardInterrupt] are not subclasses of [Exception]. *)
Inductive exn :=
| SystemExit (code : Z)
| KeyboardInterrupt
| ImportError (msg : string)
| OtherException (msg : string).

Inductive outcome (A : Type) :=
| Return (a : A)
| Raise (e : exn).
Arguments Return {A} a.
Arguments Raise {A} e.

Record world := World {
  environ : gmap string string;          (* os.environ *)
  dotenv : option (gmap string string);  (* None: python-dotenv is not installed;
                                            else the variables of the .env file *)
  trace : list event                     (* events so far, oldest first *)
}.

Definition M (A : Type) : Type := world -> outcome A * world.

Definition ret {A} (a : A) : M A := fun w => (Return a, w).

Definition bind {A B} (m : M A) (k : A -> M B) : M B :=
  fun w => match m w with
           | (Return a, w') => k a w'
           | (Raise e, w') => (Raise e, w')
           end.

Definition raise {A} (e : exn) : M A := fun w => (Raise e, w).

(** [try: m except <the exceptions h handles>: ...]; [h e = None] lets [e]
    propagate. *)
Definition try_except {A} (m : M A) (h : exn -> option (M A)) : M A :=
  fun w => match m w with
           | (Return a, w') => (Return a, w')
           | (Raise e, w') =>
               match h e with
               | Some k => k w'
               | None => (Raise e, w')
               end
           end.

(** Statements in sequence: [x ← m; k] and [m;; k]. *)
#[global] Instance M_ret : MRet M := @ret.
#[global] Instance M_bind : MBind M := fun A B k m => bind m k.

Definition emit (e : event) : M unit :=
  fun w => (Return tt, World (environ w) (dotenv w) (trace w ++ [e])).

(** Reading and replacing [os.environ]. *)
Definition gets {A} (f : world -> A) : M A := fun w => (Return (f w), w).

Definition set_environ (env : gmap string string) : M unit :=
  fun w => (Return tt, World env (dotenv w) (trace w)).

(** [print(text, file=f)] *)
Definition print (f : stream) (text : string) : M unit := emit (Output f text).

(** [sys.exit(code)] *)
Definition sys_exit {A} (code : Z) : M A := raise (SystemExit code).

(** [if c: m] as a statement *)
Definition when (c : bool) (m : M unit) : M unit := if c then m else mret tt.

(** The exit status of the process when [main] ends with this outcome. *)
Definition exit_status {A} (o : outcome A) : Z :=
  match o with
  | Return _ => 0
  | Raise (SystemExit code) => code
  | Raise KeyboardInterrupt => 130
  | Raise _ => 1
  end.

(** The lines printed to a stream, in order. *)
Definition printed (f : stream) (t : list event) : list string :=
  omap (fun e => match e, f with
                 | Output Stdout s, Stdout => Some s
                 | Output Stderr s, Stderr => Some s
                 | _, _ => None
                 end) t.

(** A process at its start: an empty environment, no python-dotenv,
    nothing printed yet. *)
Definition fresh : world := World ∅ None [].

(* ===================================================================== *)
(** ** Python values and records *)
(* ===================================================================== *)

#[local] Set Warnings "-register-all".

(** The JSON-compatible values a field can hold.  A float is kept as its
    [repr], which is what [str] prints. *)
Inductive value :=
| VNone
| VBool (b : bool)
| VInt (n : Z)
| VFloat (repr : string)
| VStr (s : string)
| VList (items : list value)
| VDict (items : list (string * value)).

(** A record, and the configuration: a [dict] with string keys. *)
Abbreviation dict := (gmap string value).

(** [str(v)].  The text of a list or of a dict is Python's [repr] of the
    container, taken as [repr_container]. *)
Definition str (repr_container : value -> string) (v : value) : string :=
  match v with
  | VNone => "None"
  | VBool true => "True"
  | VBool false => "False"
  | VInt n => PyStr.of_Z n
  | VFloat r => r
  | VStr s => s
  | VList _ | VDict _ => repr_container v
  end.

(** Python's [repr] of a string, for the code points below 256: single
    quotes unless the string holds a single and no double quote; the
    backslash, the quote in use, and the characters that are not printable
    are escaped. *)
Definition double_quote : ascii := ascii_of_nat 34.

Definition hex_digit (n : nat) : ascii :=
  ascii_of_nat (if (n <? 10)%nat then 48 + n else 87 + n).

Definition escape_char (quote c : ascii) : string :=
  let n := nat_of_ascii c in
  if Ascii.eqb c "\" then "\\"
  else if Ascii.eqb c quote then String "\" (String c EmptyString)
  else if (n =? 9)%nat then "\t"
  else if (n =? 10)%nat then "\n"
  else if (n =? 13)%nat then "\r"
  else if (n <? 32)%nat || ((127 <=? n)%nat && (n <=? 160)%nat) || (n =? 173)%nat
       then String "\" (String "x" (String (hex_digit (n / 16))
                                         (String (hex_digit (n mod 16)) EmptyString)))
  else String c EmptyString.

Fixpoint escape (quote : ascii) (s : string) : string :=
  match s with
  | EmptyString => EmptyString
  | String c s' => escape_char quote c +:+ escape quote s'
  end.

Fixpoint contains (c : ascii) (s : string) : bool :=
  match s with
  | EmptyString => false
  | String d s' => Ascii.eqb c d || contains c s'
  end.

Definition repr_str (s : string) : string :=
  let quote :=
    if contains "'" s && negb (contains double_quote s) then double_quote else "'"%char in
  String quote (escape quote s +:+ String quote EmptyString).

(** [sep.join(parts)] *)
Fixpoint join (sep : string) (parts : list string) : string :=
  match parts with
  | [] => EmptyString
  | [p] => p
  | p :: rest => p +:+ sep +:+ join sep rest
  end.

(** Python's [repr], which gives a list or a dict its text. *)
Fixpoint repr (v : value) : string :=
  match v with
  | VNone => "None"
  | VBool true => "True"
  | VBool false => "False"
  | VInt n => PyStr.of_Z n
  | VFloat r => r
  | VStr s => repr_str s
  | VList items => "[" +:+ join ", " (map repr items) +:+ "]"
  | VDict items =>
      "{" +:+ join ", " (map (fun kv => match kv with
                                        | (k, x) => repr_str k +:+ ": " +:+ repr x
                                        end) items) +:+ "}"
  end.

(** [d[key]]: a missing key raises [KeyError]. *)
Definition getitem (d : dict) (key : string) : M value :=
  match d !! key with
  | Some v => mret v
  | None => raise (OtherException ("'" +:+ key +:+ "'"))
  end.

(** [v.<method>()] where [v] must be a string: [None] has no such method. *)
Definition as_str (method : string) (v : option string) : M string :=
  match v with
  | Some s => mret s
  | None =>
      raise (OtherException
               ("'NoneType' object has no attribute '" +:+ method +:+ "'"))
  end.

(** *** Containers as Python sees them

    [x in v], [v[key]] and [for x in v] on a value whatever its type, as
    the interpreter decides them at run time; the operations a type does
    not have raise [TypeError]. *)

Definition type_name (v : value) : string :=
  match v with
  | VNone => "NoneType"
  | VBool _ => "bool"
  | VInt _ => "int"
  | VFloat _ => "float"
  | VStr _ => "str"
  | VList _ => "list"
  | VDict _ => "dict"
  end.

(** The value a dict holds under a key. *)
Fixpoint dict_get (key : string) (items : list (string * value)) : option value :=
  match items with
  | [] => None
  | (k, x) :: rest => if String.eqb k key then Some x else dict_get key rest
  end.

(** [needle in s] on strings: [needle] occurs in [s]. *)
Fixpoint occurs (needle s : string) : bool :=
  PyStr.startswith s needle
  || match s with
     | EmptyString => false
     | String _ s' => occurs needle s'
     end.

(** [x == needle] for a string [needle] *)
Definition is_str (needle : string) (x : value) : bool :=
  match x with
  | VStr s => String.eqb s needle
  | _ => false
  end.

(** [needle in v] for a string [needle] *)
Definition py_in (needle : string) (v : value) : M bool :=
  match v with
  | VDict items => mret (bool_decide (is_Some (dict_get needle items)))
  | VList items => mret (existsb (is_str needle) items)
  | VStr s => mret (occurs needle s)
  | _ =>
      raise (OtherException
               ("argument of type '" +:+ type_name v +:+ "' is not iterable"))
  end.

(** [v[key]] for a string [key] *)
Definition subscript (v : value) (key : string) : M value :=
  match v with
  | VDict items =>
      match dict_get key items with
      | Some x => mret x
      | None => raise (OtherException ("'" +:+ key +:+ "'"))
      end
  | VList _ =>
      raise (OtherException "list indices must be integers or slices, not str")
  | VStr _ =>
      raise (OtherException "string indices must be integers, not 'str'")
  | _ =>
      raise (OtherException
               ("'" +:+ type_name v +:+ "' object is not subscriptable"))
  end.

Fixpoint chars (s : string) : list value :=
  match s with
  | EmptyString => []
  | String c s' => VStr (String c EmptyString) :: chars s'
  end.

(** The elements [for x in v] goes through. *)
Definition py_iter (v : value) : M (list value) :=
  match v with
  | VList items => mret items
  | VDict items => mret (map (fun kv => VStr kv.1) items)
  | VStr s => mret (chars s)
  | _ =>
      raise (OtherException ("'" +:+ type_name v +:+ "' object is not iterable"))
  end.

(* ===================================================================== *)
(** ** sources/airtable.py *)
(* ===================================================================== *)

Module airtable.

Definition api_prefix : string := "https://api.airtable.com/".
Definition web_prefix : string := "https://airtable.com/".

Definition msg_format : string :=
  "Invalid Airtable URL. Expected format: https://airtable.com/appXXXXX/tblXXXXX/viwXXXXX".
Definition msg_parts : string :=
  "Invalid Airtable URL format. Expected: https://airtable.com/appXXXXX/tblXXXXX/viwXXXXX".
Definition msg_components : string :=
  "Invalid Airtable URL components. Expected appXXXXX/tblXXXXX/viwXXXXX format".

(** [error(message, exit_code=1)]: print to stderr, then exit. *)
Definition error {A} (message : string) (exit_code : Z) : M A :=
  print Stderr ("Error: " +:+ message) ;;
  sys_exit exit_code.

(** [parts[i]] after the length check; the default is never used when
    [i < len(parts)]. *)
Definition item (parts : list string) (i : nat) : string :=
  default EmptyString (parts !! i).

(** [convert_url(url)] *)
Definition convert_url (url : string) : M string :=
  if PyStr.startswith url api_prefix then mret url
  else
    when (negb (PyStr.startswith url web_prefix)) (error msg_format 1) ;;
    let parts := PyStr.split "/" (PyStr.replace url web_prefix "") in
    when (length parts <? 3)%nat (error msg_parts 1) ;;
    let app_id := item parts 0 in
    let table_id := item parts 1 in
    let view_id := item parts 2 in
    when (negb (PyStr.startswith app_id "app"
                && PyStr.startswith table_id "tbl"
                && PyStr.startswith view_id "viw"))
         (error msg_components 1) ;;
    let api_url :=
      "https://api.airtable.com/v0/" +:+ app_id +:+ "/" +:+ table_id
        +:+ "?view=" +:+ view_id in
    mret api_url.

(** The conversion in the words of the specification, for comparison
    with [convert_url]: the human-facing prefix is stripped from the
    front of the input and the remainder is split.  It differs from the
    source in that one step: the source removes every occurrence of the
    prefix with [str.replace]. *)
Definition convert_url_as_specified (url : string) : M string :=
  if PyStr.startswith url api_prefix then mret url
  else
    when (negb (PyStr.startswith url web_prefix)) (error msg_format 1) ;;
    let parts := PyStr.split "/" (PyStr.drop (PyStr.len web_prefix) url) in
    when (length parts <? 3)%nat (error msg_parts 1) ;;
    let app_id := item parts 0 in
    let table_id := item parts 1 in
    let view_id := item parts 2 in
    when (negb (PyStr.startswith app_id "app"
                && PyStr.startswith table_id "tbl"
                && PyStr.startswith view_id "viw"))
         (error msg_components 1) ;;
    mret ("https://api.airtable.com/v0/" +:+ app_id +:+ "/" +:+ table_id
            +:+ "?view=" +:+ view_id).

(** The path components of [convert_url], the test on their prefixes and
    the API address built from them. *)
Definition path_parts (url : string) : list string :=
  PyStr.split "/" (PyStr.replace url web_prefix "").

Definition well_prefixed (parts : list string) : bool :=
  PyStr.startswith (item parts 0) "app" && PyStr.startswith (item parts 1) "tbl"
  && PyStr.startswith (item parts 2) "viw".

Definition built (parts : list string) : string :=
  "https://api.airtable.com/v0/" +:+ item parts 0 +:+ "/" +:+ item parts 1
    +:+ "?view=" +:+ item parts 2.

(** The inputs with a URL-shape error: not in the API form, and with the
    wrong host prefix, fewer than three path segments, or a segment that
    does not begin with app, tbl, viw. *)
Definition url_shape_error (url : string) : bool :=
  negb (PyStr.startswith url api_prefix)
  && (negb (PyStr.startswith url web_prefix)
      || (length (path_parts url) <? 3)%nat
      || negb (well_prefixed (path_parts url))).

(** A view address with the human-facing prefix pasted twice. *)
Definition doubled_prefix_url : string :=
  "https://airtable.com/https://airtable.com/appA1/tblB2/viwC3".

(** The world after [error(message)] has printed. *)
Definition after_error (w : world) (message : string) : world :=
  World (environ w) (dotenv w) (trace w ++ [Output Stderr ("Error: " +:+ message)]).

(** At least two lines reached the error stream: a message and a tip. *)
Definition message_and_tip (t : list event) : Prop :=
  ∃ message tip rest, printed Stderr t = message :: tip :: rest.

(** [auth(api_key)] *)
Definition auth (api_key : string) : gmap string string :=
  {[ "Authorization" := "Bearer " +:+ api_key;
     "Content-Type" := "application/json" ]}.

(** What the sources read of a [requests.Response]: the status, the body
    and the body parsed as JSON, [None] when [response.json()] raises
    [ValueError]. *)
Record response := Response {
  status_code : Z;
  text : string;
  json : option value
}.

(** How [requests.get] ends within the [requests] exception classes:
    with a response, with a [Timeout] (a connect timeout included, which
    the first [except] clause takes), or with a [ConnectionError].  Any
    other exception is raised in [M]. *)
Inductive requests_result :=
| Responded (r : response)
| Timeout
| ConnectionError.

(** [extract(records)]: the loop, with the list built so far. *)
Fixpoint extract_loop (records extracted : list value) : M (list value) :=
  match records with
  | [] => mret extracted
  | record :: rest =>
      has_fields ← py_in "fields" record;
      if has_fields : bool
      then fields ← subscript record "fields";
           extract_loop rest (extracted ++ [fields])
      else extract_loop rest extracted
  end.

(** [extract(records)] *)
Definition extract (records : value) : M (list value) :=
  records ← py_iter records;
  extract_loop records [].

Section Client.

(** [requests.get(url, headers=headers, timeout=timeout)] *)
Variable requests_get : string -> gmap string string -> Z -> M requests_result.

(** [request(url, headers, timeout=30)].  [response.raise_for_status()]
    raises [HTTPError] for the statuses from 400 to 599. *)
Definition request (url : string) (headers : gmap string string) (timeout : Z)
  : M response :=
  try_except
    (result ← requests_get url headers timeout;
     match result with
     | Responded response =>
         let code := status_code response in
         if (400 <=? code) && (code <? 600)
         then
           if code =? 401
           then error "Invalid Airtable API key. Check your credentials in .env file." 1
           else if code =? 404
           then error "Airtable view not found. Check your AIRTABLE_VIEW_URL in .env file." 1
           else if code =? 429
           then error "Airtable API rate limit exceeded. Please try again later." 1
           else error ("Airtable API error: " +:+ PyStr.of_Z code +:+ " - "
                       +:+ text response) 1
         else mret response
     | Timeout => error "Request timed out. Check your internet connection." 1
     | ConnectionError =>
         error "Unable to connect to Airtable. Check your internet connection." 1
     end)
    (fun e =>
       match e with
       | ImportError msg | OtherException msg =>
           Some (error ("Unexpected error connecting to Airtable: " +:+ msg) 1)
       | _ => None
       end).

(** [get(api_key, view_url)] *)
Definition get (api_key view_url : string) : M (list value) :=
  when (String.eqb api_key "" || String.eqb view_url "")
       (error "Airtable API key and view URL are required" 1) ;;
  api_url ← convert_url view_url;
  let headers := auth api_key in
  response ← request api_url headers 30;
  data ← match json response with
         | Some data => mret data
         | None => error "Invalid response from Airtable API. Expected JSON." 1
         end;
  has_records ← py_in "records" data;
  when (negb has_records)
       (error "Unexpected response format from Airtable. Missing 'records' field." 1) ;;
  records ← subscript data "records";
  extract records.

End Client.

End airtable.

(* ===================================================================== *)
(** ** config.py *)
(* ===================================================================== *)

Module config.

(** [load()]: [load_dotenv()] adds the variables of the [.env] file that
    the environment does not define yet. *)
Definition load : M unit :=
  load_dotenv ← gets dotenv;
  match load_dotenv with
  | Some file =>
      emit LoadDotenv ;;
      env ← gets environ;
      set_environ (env ∪ file)
  | None => mret tt
  end.

(** [get(key, default=None)] *)
Definition get (key : string) (default : option string) : M (option string) :=
  emit (Getenv key) ;;
  env ← gets environ;
  mret (match env !! key with
        | Some v => Some v
        | None => default
        end).

(** [error(message, exit_code=1)] *)
Definition error {A} (message : string) (exit_code : Z) : M A :=
  print Stderr ("Error: " +:+ message) ;;
  print Stderr "Tip: Copy .env.example to .env and add your credentials" ;;
  sys_exit exit_code.

(** [not value] for an optional string *)
Definition falsy (value : option string) : bool :=
  match value with
  | None | Some EmptyString => true
  | Some _ => false
  end.

(** [require(key)] *)
Definition require (key : string) : M (option string) :=
  value ← get key None;
  when (falsy value)
       (error ("Required environment variable " +:+ key +:+ " not set") 1) ;;
  mret value.

Definition of_optional (v : option string) : value :=
  match v with
  | Some s => VStr s
  | None => VNone
  end.

Definition required_vars : list string :=
  ["AIRTABLE_API_KEY"; "AIRTABLE_VIEW_URL"].

(** [validate()] *)
Definition validate : M dict :=
  load ;;
  config ← foldl (fun (acc : M dict) var =>
                    config ← acc;
                    v ← require var;
                    mret (<[var := of_optional v]> config))
                 (mret ∅) required_vars;
  columns ← get "GR_COLUMNS" (Some "Name,Email,Status,Date");
  let config := <["GR_COLUMNS" := of_optional columns]> config in
  headers ← get "GR_HEADERS"
                (Some "Student Name,Email Address,Current Status,Last Updated");
  let config := <["GR_HEADERS" := of_optional headers]> config in
  debug ← get "FAC_CLI_DEBUG" (Some "false");
  debug ← as_str "lower" debug;
  let config :=
    <["FAC_CLI_DEBUG" := VBool (String.eqb (PyStr.lower debug) "true")]> config in
  mret config.

End config.

(* ===================================================================== *)
(** ** display.py *)
(* ===================================================================== *)

Module display.

Definition print_success (message : string) : M unit :=
  print Stdout ("✓ " +:+ message).

Definition print_info (message : string) : M unit :=
  print Stdout ("ℹ " +:+ message).

Definition print_warning (message : string) : M unit :=
  print Stderr ("⚠ " +:+ message).

Definition print_error (message : string) : M unit :=
  print Stderr ("✗ " +:+ message).

(** [error(message, exit_code=1)] *)
Definition error {A} (message : string) (exit_code : Z) : M A :=
  print_error message ;;
  sys_exit exit_code.

Section Formatting.

Variable repr_container : value -> string.

(** [tabulate(data, headers=headers, tablefmt=style)] of the tabulate
    package; it may raise. *)
Variable tabulate : list (list string) -> list string -> string -> M string.

(** The body of the inner loop of [format]: one cell. *)
Definition cell (row : dict) (column : string) : string :=
  let value := default (VStr "") (row !! column) in
  let str_value :=
    match value with
    | VNone => ""
    | _ => str repr_container value
    end in
  if (50 <? PyStr.len str_value)%nat
  then PyStr.take 47 str_value +:+ "..."
  else str_value.

(** [format(data, columns, headers)] *)
Definition format (data : list dict) (columns headers : list string)
  : M (list (list string)) :=
  when (negb (length columns =? length headers)%nat)
       (error ("Columns (" +:+ PyStr.of_nat (length columns)
               +:+ ") and headers (" +:+ PyStr.of_nat (length headers)
               +:+ ") count mismatch") 1) ;;
  mret (foldl (fun formatted row =>
                 formatted ++
                 [foldl (fun formatted_row column =>
                           formatted_row ++ [cell row column])
                        [] columns])
              [] data).

(** [table(data, headers, style="grid")] *)
Definition table (data : list (list string)) (headers : list string)
    (style : string) : M string :=
  match data with
  | [] => mret "No data to display"
  | _ :: _ =>
      try_except (tabulate data headers style)
        (fun e =>
           match e with
           | ImportError msg | OtherException msg =>
               Some (error ("Error formatting table: " +:+ msg) 1)
           | _ => None
           end)
  end.

(** [print_table(data, columns, headers)] *)
Definition print_table (data : list dict) (columns headers : list string)
  : M unit :=
  match data with
  | [] => print Stdout "No data available"
  | _ :: _ =>
      formatted_data ← format data columns headers;
      table_output ← table formatted_data headers "grid";
      print Stdout table_output
  end.

End Formatting.

End display.

(* ===================================================================== *)
(** ** commands/gr.py *)
(* ===================================================================== *)

Module gr.

(** [abbreviate_name(name)]: [name[:4]] *)
Definition abbreviate_name (name : string) : string := PyStr.take 4 name.

(** [parse_columns(columns_str)] *)
Definition parse_columns (columns_str : string) : list string :=
  PyStr.strip <$>
    filter (fun col => PyStr.strip col ≠ EmptyString) (PyStr.split "," columns_str).

(** [parse_headers(headers_str)] *)
Definition parse_headers (headers_str : string) : list string :=
  PyStr.strip <$>
    filter (fun header => PyStr.strip header ≠ EmptyString)
           (PyStr.split "," headers_str).

Section Pipeline.

Variable repr_container : value -> string.
Variable tabulate : list (list string) -> list string -> string -> M string.

(** [airtable.get(api_key, view_url)]: the fetch over the network. *)
Variable airtable_get : value -> value -> M (list dict).

(** [flatten_array_value(value)] *)
Definition flatten_array_value (v : value) : string :=
  match v with
  | VList items =>
      match items with
      | first :: _ => str repr_container first
      | [] => ""
      end
  | VNone => ""
  | _ => str repr_container v
  end.

(** The body of the loop of [process]: the copy of one record, with
    its family name rewritten when it has one. *)
Definition process_record (record : dict) : dict :=
  let processed_record := record in
  match processed_record !! "Family name" with
  | Some v =>
      let name := flatten_array_value v in
      <["Family name" := VStr (abbreviate_name name)]> processed_record
  | None => processed_record
  end.

(** [process(data)]; [data] may be [None]. *)
Definition process (data : option (list dict)) : list dict :=
  match data with
  | None | Some [] => []
  | Some data =>
      foldl (fun processed record => processed ++ [process_record record])
            [] data
  end.

(** [fetch()] *)
Definition fetch : M (list dict) :=
  cfg ← config.validate;
  api_key ← getitem cfg "AIRTABLE_API_KEY";
  view_url ← getitem cfg "AIRTABLE_VIEW_URL";
  airtable_get api_key view_url.

(** [s.split(",")] needs a string *)
Definition string_of (method : string) (v : value) : M string :=
  match v with
  | VStr s => mret s
  | _ => raise (OtherException ("object has no attribute '" +:+ method +:+ "'"))
  end.

(** [display_data(data)] *)
Definition display_data (data : list dict) : M unit :=
  cfg ← config.validate;
  columns_str ← getitem cfg "GR_COLUMNS";
  columns_str ← string_of "split" columns_str;
  let columns := parse_columns columns_str in
  headers_str ← getitem cfg "GR_HEADERS";
  headers_str ← string_of "split" headers_str;
  let headers := parse_headers headers_str in
  display.print_table repr_container tabulate data columns headers.

(** [run(args)] *)
Definition run (args : list string) : M unit :=
  display.print_info "Fetching gateway recent data..." ;;
  data ← fetch;
  let processed := process (Some data) in
  display_data processed ;;
  display.print_success
    ("Displayed " +:+ PyStr.of_nat (length processed) +:+ " records").

End Pipeline.

End gr.

(* ===================================================================== *)
(** ** fac.py *)
(* ===================================================================== *)

Module fac.

(** [parse(args)]; [args[1]] is in range once the length is checked. *)
Definition parse (args : list string) : string * list string :=
  if (length args <? 2)%nat then ("help", [])
  else
    let command := default EmptyString (args !! 1%nat) in
    let remaining_args := if (2 <? length args)%nat then drop 2 args else [] in
    (command, remaining_args).

Definition help_text : string := "
FAC CLI - Founders and Coders Training Operations

Usage:
  ./fac.py <command> [options]

Available commands:
  gr              Gateway recent - fetch and display recent gateway data
  help, --help    Show this help message

Examples:
  ./fac.py gr     Display recent gateway data from Airtable
  ./fac.py help   Show this help message

Configuration:
  Copy .env.example to .env and configure your Airtable credentials.

For more information, see README.md
".

(** [show_help()] *)
Definition show_help : M unit := print Stdout (PyStr.strip help_text).

(** The world after the help text has been printed. *)
Definition helped (w : world) : world :=
  World (environ w) (dotenv w) (trace w ++ [Output Stdout (PyStr.strip help_text)]).

(** [show_error(message)] *)
Definition show_error (message : string) : M unit :=
  print Stderr ("Error: " +:+ message) ;;
  print Stderr "Use './fac.py help' for usage information" ;;
  sys_exit 1.

Section Dispatcher.

Variable repr_container : value -> string.
Variable tabulate : list (list string) -> list string -> string -> M string.
Variable airtable_get : value -> value -> M (list dict).

(** [run_gr(args)] *)
Definition run_gr (args : list string) : M unit :=
  try_except (gr.run repr_container tabulate airtable_get args)
    (fun e =>
       match e with
       | ImportError _ =>
           Some (config.error "Gateway recent command module not found" 1)
       | _ => None
       end).

Definition help_commands : list string := ["help"; "--help"; "-h"].

(** [dispatch(command, args)] *)
Definition dispatch (command : string) (args : list string) : M unit :=
  if bool_decide (command ∈ help_commands) then show_help
  else
    let commands : gmap string (M unit) := {[ "gr" := run_gr args ]} in
    match commands !! command with
    | Some handler =>
        try_except (config.validate ;; handler)
          (fun e =>
             match e with
             | KeyboardInterrupt =>
                 Some (print Stderr (String "010" "Operation cancelled by user") ;;
                       sys_exit 130)
             | ImportError msg | OtherException msg =>
                 Some (debug ← config.get "FAC_CLI_DEBUG" (Some "false");
                       debug ← as_str "lower" debug;
                       if String.eqb (PyStr.lower debug) "true"
                       then raise e
                       else print Stderr ("Error: " +:+ msg) ;; sys_exit 1)
             | SystemExit _ => None
             end)
    | None => show_error ("Unknown command: " +:+ command)
    end.

(** [route(args)] *)
Definition route (args : list string) : M unit :=
  let '(command, cmd_args) := parse args in
  dispatch command cmd_args.

(** [main()], on [sys.argv] *)
Definition main (argv : list string) : M unit := route argv.

End Dispatcher.

End fac.

(** Stand-ins for the two outside services, to run examples that never
    reach them: a renderer that fails and a fetch that returns no record. *)
Definition failing_tabulate (data : list (list string)) (headers : list string)
    (style : string) : M string :=
  raise (OtherException "tabulate").

Definition no_records (api_key view_url : value) : M (list dict) := mret [].

(** Fetches that end in an interrupt, in an exception, in a failed import. *)
Definition interrupted_fetch (api_key view_url : value) : M (list dict) :=
  raise KeyboardInterrupt.

Definition broken_fetch (api_key view_url : value) : M (list dict) :=
  raise (OtherException "boom").

Definition importing_fetch (api_key view_url : value) : M (list dict) :=
  raise (ImportError "No module named 'requests'").

(** Transports that time out, and that answer every request alike. *)
Definition timing_out (url : string) (headers : gmap string string) (timeout : Z)
  : M airtable.requests_result :=
  mret airtable.Timeout.

Definition answering (r : airtable.response) (url : string)
    (headers : gmap string string) (timeout : Z) : M airtable.requests_result :=
  mret (airtable.Responded r).

(** A page of two records, the second without fields. *)
Definition sample_records : list value :=
  [VDict [("id", VStr "rec1"); ("fields", VDict [("Name", VStr "Ada")])];
   VDict [("id", VStr "rec2")]].

Definition sample_response : airtable.response :=
  airtable.Response 200 "{...}" (Some (VDict [("records", VList sample_records)])).

(** A renderer that returns the headers on one line. *)
Definition header_line_tabulate (data : list (list string)) (headers : list string)
    (style : string) : M string :=
  mret (join " | " headers).

(** The records of a response that are JSON objects, and the fields
    [extract] takes from one. *)
Definition is_dict (record : value) : bool :=
  match record with
  | VDict _ => true
  | _ => false
  end.

Definition fields_of (record : value) : option value :=
  match record with
  | VDict items => dict_get "fields" items
  | _ => None
  end.

(** The JSON values that are no containers: numbers, booleans, null. *)
Definition is_scalar (v : value) : bool :=
  match v with
  | VNone | VBool _ | VInt _ | VFloat _ => true
  | _ => false
  end.

(** A name that [parse_columns] can give back: not empty, without
    surrounding white space, without a comma. *)
Definition clean (name : string) : Prop :=
  name ≠ "" ∧ PyStr.strip name = name ∧ contains "," name = false.

(** The line [run] starts with. *)
Definition fetching : event := Output Stdout "ℹ Fetching gateway recent data...".

(** A process with the two required variables set and nothing else. *)
Definition sample_environ : gmap string string :=
  {[ "AIRTABLE_API_KEY" := "key123";
     "AIRTABLE_VIEW_URL" := "https://airtable.com/appA1/tblB2/viwC3" ]}.

Definition sample_world : world := World sample_environ None [].

(** Vocabulary for the properties of the configuration: the environment
    once [load()] has run, a world with more events and another
    environment, and the two lines of [config.error]. *)
Definition loaded_environ (w : world) : gmap string string :=
  match dotenv w with
  | Some file => environ w ∪ file
  | None => environ w
  end.

Definition load_events (w : world) : list event :=
  match dotenv w with
  | Some _ => [LoadDotenv]
  | None => []
  end.

Definition logged (w : world) (events : list event) : world :=
  World (environ w) (dotenv w) (trace w ++ events).

Definition loaded (w : world) (events : list event) : world :=
  World (loaded_environ w) (dotenv w) (trace w ++ load_events w ++ events).

Definition missing_variable (key : string) : list event :=
  [Output Stderr ("Error: Required environment variable " +:+ key +:+ " not set");
   Output Stderr "Tip: Copy .env.example to .env and add your credentials"].

(** The value [get(key, default)] gives in an environment. *)
Definition getenv (env : gmap string string) (key : string) (default : option string)
  : option string :=
  match env !! key with
  | Some v => Some v
  | None => default
  end.

(** The configuration [validate()] builds from an environment that holds
    the two required variables. *)
Definition config_of (env : gmap string string) (api_key view_url : string) : dict :=
  <["FAC_CLI_DEBUG" :=
      VBool (String.eqb (PyStr.lower (default "false" (env !! "FAC_CLI_DEBUG")))
                        "true")]>
  (<["GR_HEADERS" :=
       VStr (default "Student Name,Email Address,Current Status,Last Updated"
                     (env !! "GR_HEADERS"))]>
   (<["GR_COLUMNS" :=
        VStr (default "Name,Email,Status,Date" (env !! "GR_COLUMNS"))]>
    (<["AIRTABLE_VIEW_URL" := VStr view_url]>
     (<["AIRTABLE_API_KEY" := VStr api_key]> ∅)))).

Definition validate_events : list event :=
  [Getenv "AIRTABLE_API_KEY"; Getenv "AIRTABLE_VIEW_URL"; Getenv "GR_COLUMNS";
   Getenv "GR_HEADERS"; Getenv "FAC_CLI_DEBUG"].

(** The world in which the sample fetch of [run] is made, when [dispatch]
    has validated once before. *)
Definition sample_fetch_world : world :=
  loaded (logged (loaded sample_world validate_events) [fetching]) validate_events.

(* ===================================================================== *)
(** * Properties *)
(* ===================================================================== *)

(** ** Strings *)

Section StringFacts.

Import PyStr.

Lemma app_String (c : ascii) (s t : string) :
  String c s +:+ t = String c (s +:+ t).
Proof. reflexivity. Qed.

Lemma app_empty_l (s : string) : EmptyString +:+ s = s.
Proof. reflexivity. Qed.

Lemma app_empty_r (s : string) : s +:+ EmptyString = s.
Proof. induction s as [|c s IH]; [reflexivity|]. by rewrite app_String, IH. Qed.

Lemma app_assoc_str (s t u : string) : (s +:+ t) +:+ u = s +:+ (t +:+ u).
Proof.
  induction s as [|c s IH]; [reflexivity|]. by rewrite !app_String, IH.
Qed.

Lemma len_app (s t : string) : len (s +:+ t) = (len s + len t)%nat.
Proof.
  induction s as [|c s IH]; [reflexivity|].
  rewrite app_String. unfold len in *. simpl. by rewrite IH.
Qed.

Lemma take_len (n : nat) (s : string) : len (take n s) = (n `min` len s)%nat.
Proof.
  revert s. induction n as [|n IH]; intros [|c s]; try done.
  unfold len in *. simpl. by rewrite IH.
Qed.

Lemma take_short (n : nat) (s : string) : (len s ≤ n)%nat → take n s = s.
Proof.
  revert s. induction n as [|n IH]; intros [|c s] Hle; try done.
  - unfold len in Hle. simpl in Hle. lia.
  - simpl. f_equal. apply IH. unfold len in *. simpl in Hle. lia.
Qed.

Lemma take_drop (n : nat) (s : string) : take n s +:+ drop n s = s.
Proof.
  revert s. induction n as [|n IH]; intros [|c s]; try done.
  simpl. by rewrite app_String, IH.
Qed.

Lemma take_app_exact (s t : string) : take (len s) (s +:+ t) = s.
Proof.
  induction s as [|c s IH]; [by destruct t|].
  rewrite app_String. unfold len in *. simpl. by rewrite IH.
Qed.

Lemma startswith_app (p r : string) : startswith (p +:+ r) p = true.
Proof.
  induction p as [|c p IH]; [done|].
  rewrite app_String. simpl. by rewrite Ascii.eqb_refl.
Qed.

Lemma startswith_split (s p : string) :
  startswith s p = true → s = p +:+ drop (len p) s.
Proof.
  revert s. induction p as [|c p IH]; intros s H; [by destruct s|].
  destruct s as [|d s]; [done|]. simpl in H.
  destruct (Ascii.eqb c d) eqn:E; [|done].
  apply Ascii.eqb_eq in E as <-.
  rewrite app_String. unfold len. simpl. f_equal. by apply IH.
Qed.

Lemma startswith_iff (s p : string) :
  startswith s p = true ↔ ∃ r, s = p +:+ r.
Proof.
  split.
  - intros H. eexists. by apply startswith_split.
  - intros [r ->]. apply startswith_app.
Qed.

Lemma endswith_app (s p : string) : endswith (s +:+ p) p = true.
Proof.
  unfold endswith.
  assert (Hrev : ∀ a b, rev (a +:+ b) = rev b +:+ rev a).
  { induction a as [|c a IH]; intros b.
    - cbn [rev]. by rewrite app_empty_l, app_empty_r.
    - rewrite app_String. cbn [rev]. rewrite IH.
      by rewrite app_assoc_str. }
  rewrite Hrev. apply startswith_app.
Qed.

(** Passing over the rest of a matched occurrence. *)
Lemma replace_from_skip (old new t r : string) :
  replace_from old new (len t) (t +:+ r) = replace_from old new 0 r.
Proof.
  induction t as [|c t IH]; [by destruct r|].
  rewrite app_String. unfold len in *. simpl. apply IH.
Qed.

(** A leading occurrence of a non-empty [old] is replaced, and the scan
    goes on behind it. *)
Lemma replace_leading (c : ascii) (old new r : string) :
  replace (String c old +:+ r) (String c old) new
  = new +:+ replace r (String c old) new.
Proof.
  unfold replace.
  assert (Hhead : startswith (String c (old +:+ r)) (String c old) = true)
    by apply (startswith_app (String c old) r).
  rewrite app_String. cbn [replace_from]. rewrite Hhead. f_equal.
  assert (Hlen : (len (String c old) - 1)%nat = len old)
    by (unfold len; simpl; lia).
  rewrite Hlen. apply replace_from_skip.
Qed.

(** The primitives on the inputs of the Python documentation. *)
Example split_keeps_empty_parts :
  split "/" "a//b/" = ["a"; ""; "b"; ""] ∧ split "/" "" = [""].
Proof. split; reflexivity. Qed.

Example replace_every_occurrence :
  replace "spam spam" "sp" "h" = "ham ham" ∧ replace "aaa" "aa" "" = "a"
  ∧ replace "ab" "" "-" = "-a-b-".
Proof. repeat split; reflexivity. Qed.

Example strip_both_ends :
  strip (String "010" "  Name  ") = "Name" ∧ lower "TrUe" = "true".
Proof. split; reflexivity. Qed.

End StringFacts.

(** An append-loop builds the image of the list. *)
Lemma foldl_append_map {A B} (f : A → B) (l : list A) (init : list B) :
  foldl (fun acc x => acc ++ [f x]) init l = init ++ map f l.
Proof.
  revert init. induction l as [|x l IH]; intros init; simpl.
  - by rewrite app_nil_r.
  - rewrite IH. by rewrite <- app_assoc.
Qed.

(** ** The URL translator *)

Section ConvertUrl.

Import PyStr airtable.

(** [convert_url] as a decision list over its four exits. *)
Lemma convert_url_cases (url : string) (w : world) :
  convert_url url w =
    if startswith url api_prefix then (Return url, w)
    else if negb (startswith url web_prefix)
         then (Raise (SystemExit 1), after_error w msg_format)
    else
      let parts := path_parts url in
      if (length parts <? 3)%nat
      then (Raise (SystemExit 1), after_error w msg_parts)
      else if negb (well_prefixed parts)
           then (Raise (SystemExit 1), after_error w msg_components)
           else (Return (built parts), w).
Proof.
  unfold convert_url.
  destruct (startswith url api_prefix); [reflexivity|].
  destruct (startswith url web_prefix); cbn [negb]; [|reflexivity].
  cbv zeta.
  destruct (length _ <? 3)%nat eqn:Hlen; [reflexivity|].
  unfold well_prefixed, mbind, M_bind, bind, when.
  destruct (startswith (item _ 0) "app" && _ && _); reflexivity.
Qed.

Lemma convert_url_as_specified_cases (url : string) (w : world) :
  convert_url_as_specified url w =
    if startswith url api_prefix then (Return url, w)
    else if negb (startswith url web_prefix)
         then (Raise (SystemExit 1), after_error w msg_format)
    else
      let parts := split "/" (drop (len web_prefix) url) in
      if (length parts <? 3)%nat
      then (Raise (SystemExit 1), after_error w msg_parts)
      else if negb (well_prefixed parts)
           then (Raise (SystemExit 1), after_error w msg_components)
           else (Return (built parts), w).
Proof.
  unfold convert_url_as_specified.
  destruct (startswith url api_prefix); [reflexivity|].
  destruct (startswith url web_prefix); cbn [negb]; [|reflexivity].
  cbv zeta.
  destruct (length _ <? 3)%nat eqn:Hlen; [reflexivity|].
  unfold well_prefixed, mbind, M_bind, bind, when.
  destruct (startswith (item _ 0) "app" && _ && _); reflexivity.
Qed.

(** An input in the API form comes back as it is. *)
Lemma convert_url_api (url : string) (w : world) :
  startswith url api_prefix = true → convert_url url w = (Return url, w).
Proof. intros H. by rewrite convert_url_cases, H. Qed.

(** Whatever [convert_url] builds is in the API form. *)
Lemma built_api (parts : list string) : startswith (built parts) api_prefix = true.
Proof. reflexivity. Qed.

Lemma convert_url_returns_api (url result : string) (w w' : world) :
  convert_url url w = (Return result, w') →
  startswith result api_prefix = true ∧ w' = w.
Proof.
  rewrite convert_url_cases. cbv zeta.
  destruct (startswith url api_prefix) eqn:Hapi.
  { intros [= <- <-]. done. }
  repeat case_match; intros [= <- <-]; auto using built_api.
Qed.

(** On an input in which the human-facing prefix occurs at the front
    only, the source and the specification agree. *)
Lemma convert_url_refines (url : string) (w : world) :
  replace (drop (len web_prefix) url) web_prefix "" = drop (len web_prefix) url →
  convert_url url w = convert_url_as_specified url w.
Proof.
  intros Honce.
  rewrite convert_url_cases, convert_url_as_specified_cases. unfold path_parts.
  destruct (startswith url api_prefix); [reflexivity|].
  destruct (startswith url web_prefix) eqn:Hweb; cbn [negb]; [|reflexivity].
  apply startswith_split in Hweb.
  assert (Hrepl : replace url web_prefix "" = drop (len web_prefix) url).
  { rewrite Hweb at 1. unfold web_prefix at 1 2.
    rewrite replace_leading. fold web_prefix. by rewrite Honce. }
  by rewrite Hrepl.
Qed.

(** The scenario of the specification. *)
Example convert_url_scenario (w : world) :
  convert_url "https://airtable.com/appA1/tblB2/viwC3" w
  = (Return "https://api.airtable.com/v0/appA1/tblB2?view=viwC3", w).
Proof. rewrite convert_url_cases. reflexivity. Qed.

(** Further segments and a trailing slash are dropped. *)
Example convert_url_extra_segments (w : world) :
  convert_url "https://airtable.com/appA1/tblB2/viwC3/recD4/" w
  = (Return "https://api.airtable.com/v0/appA1/tblB2?view=viwC3", w).
Proof. rewrite convert_url_cases. reflexivity. Qed.

(** C1, where the source leaves the specification: on the address with
    the human-facing prefix pasted twice, stripping the prefix leaves
    [https://airtable.com/appA1/tblB2/viwC3], whose first segment [https:]
    does not begin with [app], so the conversion as specified ends in the
    URL-shape error; [convert_url] removes both occurrences of the prefix
    and returns an API address. *)
Theorem convert_url_doubled_prefix :
  convert_url doubled_prefix_url fresh
  = (Return "https://api.airtable.com/v0/appA1/tblB2?view=viwC3", fresh)
  ∧ convert_url_as_specified doubled_prefix_url fresh
    = (Raise (SystemExit 1), after_error fresh msg_components).
Proof.
  split.
  - rewrite convert_url_cases. reflexivity.
  - rewrite convert_url_as_specified_cases. reflexivity.
Qed.

(** C2, as amended: every URL-shape error ends the process with exit
    code 1 after exactly one line on the error stream, the message behind
    [Error: ]; no tip is printed and nothing else of the process changes. *)
Theorem convert_url_error_one_line (url : string) (w : world) :
  url_shape_error url = true →
  ∃ message,
    message ∈ [msg_format; msg_parts; msg_components]
    ∧ convert_url url w
      = (Raise (SystemExit 1),
         World (environ w) (dotenv w)
               (trace w ++ [Output Stderr ("Error: " +:+ message)])).
Proof.
  unfold url_shape_error. rewrite convert_url_cases. cbv zeta.
  destruct (startswith url api_prefix); [done|]. cbn [negb andb].
  destruct (startswith url web_prefix); cbn [negb orb].
  - destruct (length (path_parts url) <? 3)%nat; cbn [orb].
    + intros _. exists msg_parts. split; [set_solver|reflexivity].
    + destruct (well_prefixed (path_parts url)); cbn [negb]; [done|].
      intros _. exists msg_components. split; [set_solver|reflexivity].
  - intros _. exists msg_format. split; [set_solver|reflexivity].
Qed.

Lemma convert_url_error_one_line_witness :
  ∃ message,
    message ∈ [msg_format; msg_parts; msg_components]
    ∧ convert_url "https://airtable.com/app123/tbl456" fresh
      = (Raise (SystemExit 1),
         World ∅ None [Output Stderr ("Error: " +:+ message)]).
Proof.
  apply (convert_url_error_one_line "https://airtable.com/app123/tbl456" fresh).
  reflexivity.
Defined.

(** C2, as stated, fails: the address of another host is a URL-shape
    error, and the error stream receives the message alone, not a message
    and a tip. *)
Lemma convert_url_error_without_tip :
  url_shape_error "https://example.com/invalid" = true
  ∧ printed Stderr (trace (convert_url "https://example.com/invalid" fresh).2)
    = ["Error: " +:+ msg_format]
  ∧ ¬ message_and_tip (trace (convert_url "https://example.com/invalid" fresh).2).
Proof.
  split; [reflexivity|]. split; [reflexivity|].
  intros (message & tip & rest & H). discriminate H.
Qed.

(** Every error of [convert_url] is a URL-shape error. *)
Lemma convert_url_raises (url : string) (w w' : world) (e : exn) :
  convert_url url w = (Raise e, w') → url_shape_error url = true.
Proof.
  unfold url_shape_error. rewrite convert_url_cases. cbv zeta.
  destruct (startswith url api_prefix); [done|]. cbn [negb andb].
  destruct (startswith url web_prefix); cbn [negb orb]; [|done].
  destruct (length (path_parts url) <? 3)%nat; cbn [orb]; [done|].
  destruct (well_prefixed (path_parts url)); done.
Qed.

(** C4: converting the result of an accepted human-facing address again
    changes nothing. *)
Theorem convert_url_idempotent (url result : string) (w w' : world) :
  startswith url web_prefix = true →
  convert_url url w = (Return result, w') →
  convert_url result w' = (Return result, w').
Proof.
  intros _ Hconv.
  apply convert_url_returns_api in Hconv as [Hapi ->].
  by apply convert_url_api.
Qed.

Lemma convert_url_idempotent_witness :
  convert_url "https://api.airtable.com/v0/appA1/tblB2?view=viwC3" fresh
  = (Return "https://api.airtable.com/v0/appA1/tblB2?view=viwC3", fresh).
Proof.
  apply (convert_url_idempotent "https://airtable.com/appA1/tblB2/viwC3" _ fresh fresh).
  - reflexivity.
  - reflexivity.
Defined.

End ConvertUrl.

(** ** The record transform *)

Section Transform.

Import PyStr gr.

Variable repr_container : value → string.

Abbreviation flatten_array_value := (flatten_array_value repr_container).
Abbreviation process_record := (process_record repr_container).
Abbreviation process := (process repr_container).
Abbreviation str := (str repr_container).

(** The loop of [process] maps [process_record] over the list. *)
Lemma process_map (data : list dict) :
  process (Some data) = map process_record data.
Proof.
  destruct data as [|record data]; [reflexivity|].
  unfold process. by rewrite foldl_append_map.
Qed.

Lemma process_record_other (record : dict) (key : string) :
  key ≠ "Family name" → process_record record !! key = record !! key.
Proof.
  intros Hkey. unfold gr.process_record.
  destruct (record !! "Family name"); [|done].
  by rewrite lookup_insert_ne.
Qed.

Lemma process_record_family_name (record : dict) :
  process_record record !! "Family name"
  = (fun v => VStr (abbreviate_name (flatten_array_value v)))
      <$> record !! "Family name".
Proof.
  unfold gr.process_record.
  destruct (record !! "Family name") as [v|] eqn:Hv; simpl.
  - by rewrite lookup_insert_eq.
  - by rewrite Hv.
Qed.

(** C7: the abbreviation of [s] has [min(len(s), 4)] characters; it is the
    four characters [s] begins with when [s] is longer than that, and [s]
    itself, without padding, otherwise. *)
Theorem abbreviate_name_spec (s : string) :
  len (abbreviate_name s) = (len s `min` 4)%nat
  ∧ ((4 < len s)%nat →
     len (abbreviate_name s) = 4%nat ∧ ∃ rest, s = abbreviate_name s +:+ rest)
  ∧ ((len s ≤ 4)%nat → abbreviate_name s = s).
Proof.
  unfold abbreviate_name. split; [|split].
  - rewrite take_len. lia.
  - intros Hlong. split.
    + rewrite take_len. lia.
    + exists (drop 4 s). by rewrite take_drop.
  - apply take_short.
Qed.

(** C3: [process] gives the empty list for [None] and for the empty list;
    it keeps the length of the list, every key other than [Family name]
    with its value, and replaces the value [v] of a [Family name] by the
    abbreviation of the flattened [v]. *)
Theorem process_spec (data : list dict) :
  process None = [] ∧ process (Some []) = []
  ∧ length (process (Some data)) = length data
  ∧ (∀ (i : nat) (record : dict),
       data !! i = Some record →
       ∃ processed : dict,
         process (Some data) !! i = Some processed
         ∧ (∀ key, key ≠ "Family name" → processed !! key = record !! key)
         ∧ processed !! "Family name"
           = (fun v => VStr (abbreviate_name (flatten_array_value v)))
               <$> record !! "Family name")
  ∧ process
      (Some [ {[ "Family name" := VList [VStr "Elizabeth"]; "Status" := VStr "x" ]} ])
    = [ {[ "Family name" := VStr "Eliz"; "Status" := VStr "x" ]} ].
Proof.
  split; [reflexivity|]. split; [reflexivity|]. split; [|split].
  - by rewrite process_map, length_map.
  - intros i record Hi. exists (process_record record).
    rewrite process_map, list_lookup_fmap, Hi.
    split; [reflexivity|].
    split; [apply process_record_other | apply process_record_family_name].
  - vm_compute. reflexivity.
Qed.

(** A record without a family name passes through as it is. *)
Lemma process_keeps_absent_family_name (record : dict) :
  record !! "Family name" = None → process_record record = record.
Proof. intros H. unfold gr.process_record. by rewrite H. Qed.

(** C10, as amended: a list that begins with [None] flattens to the text
    [None]; the empty string comes out for the empty list, for [None]
    itself, and otherwise exactly when the string form of the value (of
    the first element, for a list) is empty. *)
Theorem flatten_array_value_empty (v : value) :
  (∀ rest, flatten_array_value (VList (VNone :: rest)) = "None")
  ∧ flatten_array_value (VList []) = ""
  ∧ flatten_array_value VNone = ""
  ∧ (flatten_array_value v = ""
     ↔ v = VNone ∨ v = VList []
       ∨ (∃ first rest, v = VList (first :: rest) ∧ str first = "")
       ∨ ((∀ items, v ≠ VList items) ∧ str v = "")).
Proof.
  split; [reflexivity|]. split; [reflexivity|]. split; [reflexivity|].
  split.
  - destruct v as [| b | n | r | s | [|first rest] | items]; intros H; auto;
      try (right; right; right; split; [intros ?; discriminate | exact H]).
    right. right. left. by exists first, rest.
  - intros [-> | [-> | [(first & rest & -> & H) | [Hnl H]]]];
      [reflexivity | reflexivity | exact H |].
    destruct v as [| b | n | r | s | items | items]; try exact H.
    + reflexivity.
    + by destruct (Hnl items).
Qed.

End Transform.

Lemma abbreviate_name_spec_witness :
  PyStr.len (gr.abbreviate_name "Elizabeth") = 4%nat
  ∧ gr.abbreviate_name "Owen" = "Owen".
Proof.
  destruct (abbreviate_name_spec "Elizabeth") as (_ & Hlong & _).
  destruct (abbreviate_name_spec "Owen") as (_ & _ & Hshort).
  split.
  - apply Hlong. vm_compute. lia.
  - apply Hshort. vm_compute. lia.
Defined.

Lemma process_spec_witness :
  ∃ processed : dict,
    gr.process repr (Some [ {[ "Family name" := VStr "Owen"; "Status" := VInt 3 ]} ])
      !! 0%nat = Some processed
    ∧ processed !! "Status" = Some (VInt 3).
Proof.
  destruct (process_spec repr [ {[ "Family name" := VStr "Owen"; "Status" := VInt 3 ]} ])
    as (_ & _ & _ & Hrec & _).
  destruct (Hrec 0%nat _ eq_refl) as (processed & Hi & Hother & _).
  exists processed. split; [exact Hi|].
  rewrite (Hother "Status"); [reflexivity | discriminate].
Defined.

(** C10, as stated, fails: the empty string flattens to the empty string,
    and it is neither the empty list nor [None]. *)
Lemma flatten_of_empty_string :
  gr.flatten_array_value repr (VStr "") = ""
  ∧ gr.flatten_array_value repr (VList [VStr ""; VStr "x"]) = ""
  ∧ VStr "" ≠ VList [] ∧ VStr "" ≠ VNone
  ∧ VList [VStr ""; VStr "x"] ≠ VList [] ∧ VList [VStr ""; VStr "x"] ≠ VNone.
Proof. repeat split; (reflexivity || discriminate). Qed.

(** ** The table renderer *)

Section Renderer.

Import PyStr display.

Variable repr_container : value → string.
Variable tabulate : list (list string) → list string → string → M string.

Abbreviation cell := (cell repr_container).
Abbreviation format := (format repr_container).
Abbreviation table := (table tabulate).
Abbreviation print_table := (print_table repr_container tabulate).
Abbreviation str := (str repr_container).

(** The loops of [format] map [cell] over the columns of every row. *)
Lemma format_rows (data : list dict) (columns headers : list string) (w : world) :
  length columns = length headers →
  format data columns headers w
  = (Return (map (fun row => map (cell row) columns) data), w).
Proof.
  intros Hlen. unfold display.format.
  rewrite Hlen, Nat.eqb_refl. cbn [negb when].
  rewrite foldl_append_map.
  rewrite (map_ext _ (fun row => map (cell row) columns)); [reflexivity|].
  intros row. by rewrite foldl_append_map.
Qed.

(** What one cell holds. *)
Lemma cell_present (row : dict) (column : string) (v : value) :
  row !! column = Some v → v ≠ VNone →
  cell row column
  = if (50 <? len (str v))%nat then take 47 (str v) +:+ "..." else str v.
Proof.
  intros Hv Hnone. unfold display.cell. rewrite Hv. cbn [default].
  by destruct v.
Qed.

Lemma cell_long (row : dict) (column : string) (v : value) :
  row !! column = Some v → v ≠ VNone → (50 < len (str v))%nat →
  cell row column = take 47 (str v) +:+ "...".
Proof.
  intros Hv Hnone Hlong. rewrite (cell_present row column v) by done.
  apply Nat.ltb_lt in Hlong. by rewrite Hlong.
Qed.

Lemma cell_short (row : dict) (column : string) (v : value) :
  row !! column = Some v → v ≠ VNone → (len (str v) ≤ 50)%nat →
  cell row column = str v.
Proof.
  intros Hv Hnone Hshort. rewrite (cell_present row column v) by done.
  apply Nat.ltb_ge in Hshort. by rewrite Hshort.
Qed.

Lemma cell_none (row : dict) (column : string) :
  row !! column = Some VNone → cell row column = "".
Proof. intros Hv. unfold display.cell. by rewrite Hv. Qed.

Lemma cell_absent (row : dict) (column : string) :
  row !! column = None → cell row column = "".
Proof. intros Hv. unfold display.cell. by rewrite Hv. Qed.

Lemma ellipsis_len (s : string) :
  (50 < len s)%nat → len (take 47 s +:+ "...") = 50%nat.
Proof. intros H. rewrite len_app, take_len. change (len "...") with 3%nat. lia. Qed.

(** C5: with as many columns as headers, [format] returns one row per
    record and one cell per column; a value whose string form has more
    than 50 characters gives its first 47 characters and [...], 50
    characters in all; a shorter string form is kept; [None] and an absent
    key give the empty string. *)
Theorem format_cells (data : list dict) (columns headers : list string) (w : world) :
  length columns = length headers →
  ∃ rows,
    format data columns headers w = (Return rows, w)
    ∧ length rows = length data
    ∧ ∀ (i j : nat) (row : dict) (column : string),
        data !! i = Some row → columns !! j = Some column →
        ∃ text,
          rows !! i ≫= (.!! j) = Some text
          ∧ match row !! column with
            | None | Some VNone => text = ""
            | Some v =>
                if (50 <? len (str v))%nat
                then text = take 47 (str v) +:+ "..."
                     ∧ len text = 50%nat ∧ endswith text "..." = true
                else text = str v
            end.
Proof.
  intros Hlen. eexists. split; [by apply format_rows|].
  split; [by rewrite length_map|].
  intros i j row column Hi Hj. exists (cell row column). split.
  - rewrite list_lookup_fmap, Hi. cbn. by rewrite list_lookup_fmap, Hj.
  - destruct (row !! column) as [v|] eqn:Hv; [|by apply cell_absent].
    assert (Hcases :
      if (50 <? len (str v))%nat
      then v ≠ VNone → cell row column = take 47 (str v) +:+ "..."
                       ∧ len (cell row column) = 50%nat
                       ∧ endswith (cell row column) "..." = true
      else v ≠ VNone → cell row column = str v).
    { destruct (50 <? len (str v))%nat eqn:E.
      - apply Nat.ltb_lt in E. intros Hnone.
        rewrite (cell_long row column v) by done.
        split; [reflexivity|]. split; [by apply ellipsis_len | apply endswith_app].
      - apply Nat.ltb_ge in E. intros Hnone. by apply cell_short. }
    destruct v; try (by apply cell_none);
      (destruct (50 <? len _)%nat; by apply Hcases).
Qed.

(** C6: when the numbers of columns and headers differ, [format] prints
    the error naming both counts and exits with code 1, whatever the
    records are; no row is returned. *)
Theorem format_count_mismatch (data : list dict) (columns headers : list string)
    (w : world) :
  length columns ≠ length headers →
  format data columns headers w
  = (Raise (SystemExit 1),
     World (environ w) (dotenv w)
           (trace w ++
            [Output Stderr ("✗ Columns (" +:+ of_nat (length columns)
                           +:+ ") and headers (" +:+ of_nat (length headers)
                           +:+ ") count mismatch")])).
Proof.
  intros Hne. unfold display.format.
  destruct (length columns =? length headers)%nat eqn:E.
  - apply Nat.eqb_eq in E. done.
  - reflexivity.
Qed.

(** C8: with no record, [print_table] prints [No data available] and
    nothing else, whatever the renderer would do; with no row, [table]
    returns [No data to display]. *)
Theorem print_table_empty (columns headers : list string) (style : string)
    (w : world) :
  print_table [] columns headers w
  = (Return tt,
     World (environ w) (dotenv w) (trace w ++ [Output Stdout "No data available"]))
  ∧ table [] headers style w = (Return "No data to display", w).
Proof. split; reflexivity. Qed.

End Renderer.

Lemma format_cells_witness :
  ∃ rows,
    display.format repr [ {[ "Name" := VStr "Ada" ]} ] ["Name"; "Email"]
                   ["Student Name"; "Email Address"] fresh
    = (Return rows, fresh)
    ∧ length rows = 1%nat.
Proof.
  destruct (format_cells repr [ {[ "Name" := VStr "Ada" ]} ] ["Name"; "Email"]
              ["Student Name"; "Email Address"] fresh eq_refl)
    as (rows & Hrun & Hlen & _).
  exists rows. split; [exact Hrun | exact Hlen].
Defined.

Lemma format_count_mismatch_witness :
  display.format repr [] ["Name"; "Email"] ["Student Name"] fresh
  = (Raise (SystemExit 1),
     World ∅ None [Output Stderr "✗ Columns (2) and headers (1) count mismatch"]).
Proof.
  apply (format_count_mismatch repr [] ["Name"; "Email"] ["Student Name"] fresh).
  simpl. lia.
Defined.

(** ** The command dispatcher *)

Section Dispatch.

Import PyStr fac.

Variable repr_container : value → string.
Variable tabulate : list (list string) → list string → string → M string.
Variable airtable_get : value → value → M (list dict).

Abbreviation dispatch := (dispatch repr_container tabulate airtable_get).
Abbreviation route := (route repr_container tabulate airtable_get).
Abbreviation main := (main repr_container tabulate airtable_get).

Lemma parse_short (args : list string) :
  (length args < 2)%nat → parse args = ("help", []).
Proof.
  intros Hlen. unfold parse.
  destruct (length args <? 2)%nat eqn:E; [reflexivity|].
  apply Nat.ltb_ge in E. lia.
Qed.

Lemma parse_command (prog command : string) (rest : list string) :
  parse (prog :: command :: rest) = (command, rest).
Proof. unfold parse. by destruct rest. Qed.

(** The three help commands print the help text and return. *)
Lemma dispatch_help (command : string) (args : list string) (w : world) :
  command ∈ help_commands → dispatch command args w = (Return tt, helped w).
Proof.
  intros Hin. unfold fac.dispatch. by rewrite bool_decide_true.
Qed.

(** C9: without a command, [parse] yields [help] and no arguments, and
    routing does what dispatching [help] does: the help text goes to the
    standard output and the process ends with exit code 0.  The trace
    gains that one event: the environment is neither loaded nor read,
    whatever it holds. *)
Theorem route_without_command (args : list string) (w : world) :
  (length args < 2)%nat →
  parse args = ("help", [])
  ∧ route args w = dispatch "help" [] w
  ∧ main args w = (Return tt, helped w)
  ∧ trace (main args w).2 = trace w ++ [Output Stdout (strip help_text)]
  ∧ exit_status (main args w).1 = 0.
Proof.
  intros Hlen.
  assert (Hroute : route args w = dispatch "help" [] w).
  { unfold fac.route. by rewrite parse_short. }
  assert (Hmain : main args w = (Return tt, helped w)).
  { unfold fac.main. rewrite Hroute. apply dispatch_help. set_solver. }
  split; [by apply parse_short|]. split; [exact Hroute|]. split; [exact Hmain|].
  by rewrite Hmain.
Qed.

(** The printed help text. *)
Example help_text_stripped :
  strip help_text
  = "FAC CLI - Founders and Coders Training Operations

Usage:
  ./fac.py <command> [options]

Available commands:
  gr              Gateway recent - fetch and display recent gateway data
  help, --help    Show this help message

Examples:
  ./fac.py gr     Display recent gateway data from Airtable
  ./fac.py help   Show this help message

Configuration:
  Copy .env.example to .env and configure your Airtable credentials.

For more information, see README.md".
Proof. vm_compute. reflexivity. Qed.

(** By contrast the [gr] command validates the configuration first: in
    an empty environment it reads the first required variable, prints the
    message and the tip, and exits with code 1 before anything is fetched. *)
Lemma dispatch_gr_validates (args : list string) :
  dispatch "gr" args fresh
  = (Raise (SystemExit 1),
     World ∅ None
       [Getenv "AIRTABLE_API_KEY";
        Output Stderr "Error: Required environment variable AIRTABLE_API_KEY not set";
        Output Stderr "Tip: Copy .env.example to .env and add your credentials"]).
Proof. reflexivity. Qed.

End Dispatch.

Lemma route_without_command_witness :
  fac.main repr failing_tabulate no_records ["fac.py"] fresh
  = (Return tt, fac.helped fresh).
Proof.
  destruct (route_without_command repr failing_tabulate no_records ["fac.py"] fresh)
    as (_ & _ & Hmain & _).
  - simpl. lia.
  - exact Hmain.
Defined.

(* ===================================================================== *)
(** * Further properties of the sources *)
(* ===================================================================== *)

(** Running the statements of the monad. *)
Ltac run :=
  unfold mbind, M_bind, bind, mret, M_ret, ret, when, print, emit, sys_exit,
    raise, gets, set_environ, try_except; cbn beta iota.

(** ** The configuration resolver *)

Section Configuration.

Import PyStr config.

Lemma load_run (w : world) : load w = (Return tt, loaded w []).
Proof.
  unfold load, loaded, loaded_environ, load_events. run.
  destruct w as [env [file|] t]; cbn; by rewrite ?app_nil_r.
Qed.

Lemma get_run (key : string) (default : option string) (w : world) :
  get key default w
  = (Return (getenv (environ w) key default), logged w [Getenv key]).
Proof. reflexivity. Qed.

Lemma require_run (key : string) (w : world) :
  require key w =
    if falsy (environ w !! key)
    then (Raise (SystemExit 1), logged w (Getenv key :: missing_variable key))
    else (Return (environ w !! key), logged w [Getenv key]).
Proof.
  unfold require. run. rewrite get_run. unfold getenv, error. run.
  destruct (environ w !! key) as [[|c v]|]; cbn;
    unfold logged, missing_variable; cbn; by rewrite <- ?app_assoc.
Qed.

(** [validate] as a decision list over its three exits. *)
Lemma validate_run (w : world) :
  validate w =
    let env := loaded_environ w in
    if falsy (env !! "AIRTABLE_API_KEY")
    then (Raise (SystemExit 1),
          loaded w (Getenv "AIRTABLE_API_KEY" :: missing_variable "AIRTABLE_API_KEY"))
    else if falsy (env !! "AIRTABLE_VIEW_URL")
    then (Raise (SystemExit 1),
          loaded w (Getenv "AIRTABLE_API_KEY" :: Getenv "AIRTABLE_VIEW_URL"
                    :: missing_variable "AIRTABLE_VIEW_URL"))
    else (Return (config_of env (default "" (env !! "AIRTABLE_API_KEY"))
                            (default "" (env !! "AIRTABLE_VIEW_URL"))),
          loaded w validate_events).
Proof.
  unfold validate. run. rewrite load_run. cbn [foldl required_vars]. run.
  rewrite require_run. cbn [environ loaded logged]. cbv zeta.
  destruct (loaded_environ w !! "AIRTABLE_API_KEY") as [[|a k]|] eqn:Hk;
    cbn [falsy];
    [ unfold loaded, logged; cbn; by rewrite <- !app_assoc | |
      unfold loaded, logged; cbn; by rewrite <- !app_assoc ].
  rewrite require_run. cbn [environ loaded logged].
  destruct (loaded_environ w !! "AIRTABLE_VIEW_URL") as [[|b u]|] eqn:Hu;
    cbn [falsy];
    [ unfold loaded, logged; cbn; by rewrite <- !app_assoc | |
      unfold loaded, logged; cbn; by rewrite <- !app_assoc ].
  rewrite !get_run.
  unfold getenv, as_str, config_of, loaded, logged, validate_events. run. cbn.
  destruct (loaded_environ w !! "GR_COLUMNS"), (loaded_environ w !! "GR_HEADERS"),
    (loaded_environ w !! "FAC_CLI_DEBUG"); cbn; by rewrite <- !app_assoc.
Qed.

Lemma falsy_false (v : option string) :
  falsy v = false ↔ ∃ s, v = Some s ∧ s ≠ "".
Proof.
  split.
  - destruct v as [[|c s]|]; try done. intros _. by eexists.
  - intros (s & -> & Hs). by destruct s.
Qed.

(** X1: a configuration that [validate] returns is never partial: it
    holds exactly the five keys, and the two required ones are the
    non-empty strings of the environment (the [.env] file included). *)
Theorem validate_never_partial (w w' : world) (cfg : dict) :
  validate w = (Return cfg, w') →
  ∃ api_key view_url,
    api_key ≠ "" ∧ view_url ≠ ""
    ∧ loaded_environ w !! "AIRTABLE_API_KEY" = Some api_key
    ∧ loaded_environ w !! "AIRTABLE_VIEW_URL" = Some view_url
    ∧ cfg !! "AIRTABLE_API_KEY" = Some (VStr api_key)
    ∧ cfg !! "AIRTABLE_VIEW_URL" = Some (VStr view_url)
    ∧ dom cfg = list_to_set ["AIRTABLE_API_KEY"; "AIRTABLE_VIEW_URL"; "GR_COLUMNS";
                             "GR_HEADERS"; "FAC_CLI_DEBUG"].
Proof.
  rewrite validate_run. cbv zeta.
  destruct (falsy (loaded_environ w !! "AIRTABLE_API_KEY")) eqn:Hk; [done|].
  destruct (falsy (loaded_environ w !! "AIRTABLE_VIEW_URL")) eqn:Hu; [done|].
  apply falsy_false in Hk as (k & Hk & Hk0), Hu as (u & Hu & Hu0).
  rewrite Hk, Hu. cbn [default]. intros [= <- _].
  exists k, u. repeat (split; [done|]).
  unfold config_of. rewrite !dom_insert_L, dom_empty_L. set_solver.
Qed.

(** X2: when a required variable is absent or empty, [validate] prints
    the message that names the first such variable and the tip, both to
    the error stream, and exits with code 1; the API key is looked at
    before the view address. *)
Theorem validate_missing_required (w : world) :
  falsy (loaded_environ w !! "AIRTABLE_API_KEY") = true
  ∨ falsy (loaded_environ w !! "AIRTABLE_VIEW_URL") = true →
  ∃ key events,
    validate w = (Raise (SystemExit 1), loaded w events)
    ∧ key ∈ required_vars
    ∧ falsy (loaded_environ w !! key) = true
    ∧ (key = "AIRTABLE_VIEW_URL" →
       falsy (loaded_environ w !! "AIRTABLE_API_KEY") = false)
    ∧ printed Stderr events
      = ["Error: Required environment variable " +:+ key +:+ " not set";
         "Tip: Copy .env.example to .env and add your credentials"]
    ∧ printed Stdout events = [].
Proof.
  intros Hmissing. rewrite validate_run. cbv zeta.
  destruct (falsy (loaded_environ w !! "AIRTABLE_API_KEY")) eqn:Hk.
  - eexists "AIRTABLE_API_KEY", _. split; [reflexivity|].
    split; [unfold required_vars; rewrite !elem_of_cons; auto|].
    split; [done|]. split; [done|]. done.
  - destruct Hmissing as [Hk'|Hu]; [congruence|]. rewrite Hu.
    eexists "AIRTABLE_VIEW_URL", _. split; [reflexivity|].
    split; [unfold required_vars; rewrite !elem_of_cons; auto|].
    split; [done|]. split; [done|]. done.
Qed.

(** X3: the optional settings of a returned configuration: the column
    and header lists fall back on their defaults when the variable is not
    set, and the debug flag is true exactly when the variable, in lower
    case, reads [true]. *)
Theorem validate_optional_settings (w w' : world) (cfg : dict) :
  validate w = (Return cfg, w') →
  cfg !! "GR_COLUMNS"
  = Some (VStr (default "Name,Email,Status,Date"
                        (loaded_environ w !! "GR_COLUMNS")))
  ∧ cfg !! "GR_HEADERS"
    = Some (VStr (default "Student Name,Email Address,Current Status,Last Updated"
                          (loaded_environ w !! "GR_HEADERS")))
  ∧ cfg !! "FAC_CLI_DEBUG"
    = Some (VBool (String.eqb
                     (lower (default "false" (loaded_environ w !! "FAC_CLI_DEBUG")))
                     "true")).
Proof.
  rewrite validate_run. cbv zeta.
  destruct (falsy (loaded_environ w !! "AIRTABLE_API_KEY")); [done|].
  destruct (falsy (loaded_environ w !! "AIRTABLE_VIEW_URL")); [done|].
  intros [= <- _]. by repeat split.
Qed.

Lemma loaded_environ_stable (w : world) (events : list event) :
  loaded_environ (loaded w events) = loaded_environ w.
Proof.
  unfold loaded. unfold loaded_environ. cbn.
  destruct (dotenv w) as [file|]; [|reflexivity].
  by rewrite <- (assoc_L (∪)), (idemp_L (∪) file).
Qed.

(** X4: validating again gives the same configuration: the checks that
    the dispatcher, the fetch and the display each make agree. *)
Theorem validate_again (w w' : world) (cfg : dict) :
  validate w = (Return cfg, w') →
  ∃ w'', validate w' = (Return cfg, w'') ∧ environ w'' = environ w'.
Proof.
  intros Hfirst. pose proof Hfirst as Hrun. rewrite validate_run in Hrun.
  cbv zeta in Hrun. rewrite validate_run. cbv zeta.
  destruct (falsy (loaded_environ w !! "AIRTABLE_API_KEY")) eqn:Hk; [done|].
  destruct (falsy (loaded_environ w !! "AIRTABLE_VIEW_URL")) eqn:Hu; [done|].
  injection Hrun as <- <-.
  rewrite !loaded_environ_stable, Hk, Hu.
  eexists. split; [reflexivity|]. cbn. apply loaded_environ_stable.
Qed.

End Configuration.

Lemma validate_never_partial_witness :
  ∃ api_key view_url,
    api_key ≠ "" ∧ view_url ≠ ""
    ∧ loaded_environ sample_world !! "AIRTABLE_API_KEY" = Some api_key
    ∧ loaded_environ sample_world !! "AIRTABLE_VIEW_URL" = Some view_url
    ∧ config_of sample_environ "key123" "https://airtable.com/appA1/tblB2/viwC3"
        !! "AIRTABLE_API_KEY" = Some (VStr api_key)
    ∧ config_of sample_environ "key123" "https://airtable.com/appA1/tblB2/viwC3"
        !! "AIRTABLE_VIEW_URL" = Some (VStr view_url)
    ∧ dom (config_of sample_environ "key123" "https://airtable.com/appA1/tblB2/viwC3")
      = list_to_set ["AIRTABLE_API_KEY"; "AIRTABLE_VIEW_URL"; "GR_COLUMNS";
                     "GR_HEADERS"; "FAC_CLI_DEBUG"].
Proof.
  apply (validate_never_partial sample_world (loaded sample_world validate_events)).
  vm_compute. reflexivity.
Defined.

Lemma validate_missing_required_witness :
  ∃ key events,
    config.validate fresh = (Raise (SystemExit 1), loaded fresh events)
    ∧ key ∈ config.required_vars
    ∧ config.falsy (loaded_environ fresh !! key) = true
    ∧ (key = "AIRTABLE_VIEW_URL" →
       config.falsy (loaded_environ fresh !! "AIRTABLE_API_KEY") = false)
    ∧ printed Stderr events
      = ["Error: Required environment variable " +:+ key +:+ " not set";
         "Tip: Copy .env.example to .env and add your credentials"]
    ∧ printed Stdout events = [].
Proof.
  apply (validate_missing_required fresh). left. reflexivity.
Defined.

Lemma validate_optional_settings_witness :
  config_of sample_environ "key123" "https://airtable.com/appA1/tblB2/viwC3"
    !! "GR_COLUMNS" = Some (VStr "Name,Email,Status,Date").
Proof.
  destruct (validate_optional_settings sample_world
              (loaded sample_world validate_events)
              (config_of sample_environ "key123"
                 "https://airtable.com/appA1/tblB2/viwC3"))
    as (Hcolumns & _ & _).
  - vm_compute. reflexivity.
  - exact Hcolumns.
Defined.

Lemma validate_again_witness :
  ∃ w'',
    config.validate (loaded sample_world validate_events)
    = (Return (config_of sample_environ "key123"
                 "https://airtable.com/appA1/tblB2/viwC3"), w'')
    ∧ environ w'' = environ (loaded sample_world validate_events).
Proof.
  apply (validate_again sample_world). vm_compute. reflexivity.
Defined.

(** ** The table renderer, further *)

Section RendererMore.

Import PyStr display.

Variable repr_container : value → string.
Variable tabulate : list (list string) → list string → string → M string.

Abbreviation cell := (cell repr_container).
Abbreviation format := (format repr_container).
Abbreviation table := (table tabulate).
Abbreviation print_table := (print_table repr_container tabulate).

Lemma cell_bounded (row : dict) (column : string) :
  (len (cell row column) ≤ 50)%nat.
Proof.
  unfold display.cell. cbv zeta.
  destruct (50 <? len _)%nat eqn:E.
  - apply Nat.ltb_lt in E. rewrite ellipsis_len; [done|exact E].
  - by apply Nat.ltb_ge in E.
Qed.

Lemma format_refuses (data : list dict) (columns headers : list string) (w : world) :
  length columns ≠ length headers →
  ∃ message,
    format data columns headers w
    = (Raise (SystemExit 1), logged w [Output Stderr message])
    ∧ message = "✗ Columns (" +:+ of_nat (length columns) +:+ ") and headers ("
                +:+ of_nat (length headers) +:+ ") count mismatch".
Proof.
  intros Hne. eexists. split; [|reflexivity]. unfold display.format.
  destruct (length columns =? length headers)%nat eqn:E; [|reflexivity].
  by apply Nat.eqb_eq in E.
Qed.

(** X5: the rows [format] returns form a rectangle, one row per record
    and one cell per column, no cell is longer than 50 characters, and
    nothing is printed. *)
Theorem format_rectangular (data : list dict) (columns headers : list string)
    (w w' : world) (rows : list (list string)) :
  format data columns headers w = (Return rows, w') →
  w' = w
  ∧ length rows = length data
  ∧ Forall (fun row => length row = length columns
                       ∧ Forall (fun text => (len text ≤ 50)%nat) row) rows.
Proof.
  intros Hrun.
  destruct (decide (length columns = length headers)) as [Hlen|Hlen].
  - rewrite format_rows in Hrun by done. injection Hrun as <- <-.
    split; [done|]. split; [by rewrite length_map|].
    apply Forall_forall. intros row [record [-> _]]%list_elem_of_fmap.
    split; [by rewrite length_map|].
    apply Forall_forall. intros text [column [-> _]]%list_elem_of_fmap.
    apply cell_bounded.
  - destruct (format_refuses data columns headers w Hlen) as (message & Hexit & _).
    by rewrite Hexit in Hrun.
Qed.

(** X6: an exception of the renderer ends [table] with the error line
    that carries its message and exit code 1; an interrupt or an exit is
    passed on as it is. *)
Theorem table_renderer_fails (data : list (list string)) (headers : list string)
    (style : string) (w w' : world) (e : exn) :
  data ≠ [] →
  tabulate data headers style w = (Raise e, w') →
  table data headers style w
  = match e with
    | ImportError msg | OtherException msg =>
        (Raise (SystemExit 1),
         logged w' [Output Stderr ("✗ Error formatting table: " +:+ msg)])
    | _ => (Raise e, w')
    end.
Proof.
  intros Hdata Hfail. destruct data as [|row data]; [done|].
  unfold display.table. run. rewrite Hfail. by destruct e.
Qed.

(** X7: with records and as many columns as headers, [print_table] prints
    what the renderer makes of the formatted rows, the headers and the
    grid style, and nothing else. *)
Theorem print_table_prints_rendering (data : list dict)
    (columns headers : list string) (w w' : world) (output : string) :
  data ≠ [] →
  length columns = length headers →
  tabulate (map (fun row => map (cell row) columns) data) headers "grid" w
  = (Return output, w') →
  print_table data columns headers w = (Return tt, logged w' [Output Stdout output]).
Proof.
  intros Hdata Hlen Hrender. destruct data as [|record data]; [done|].
  unfold display.print_table. run. rewrite format_rows by done.
  unfold display.table. cbn [map]. cbn [map] in Hrender. run.
  by rewrite Hrender.
Qed.

(** X8: with records but a different number of columns and headers,
    [print_table] ends with the count error before the renderer is
    reached: whatever the renderer is, no table is printed. *)
Theorem print_table_mismatch (data : list dict) (columns headers : list string)
    (w : world) :
  data ≠ [] →
  length columns ≠ length headers →
  print_table data columns headers w
  = (Raise (SystemExit 1),
     logged w [Output Stderr ("✗ Columns (" +:+ of_nat (length columns)
                              +:+ ") and headers (" +:+ of_nat (length headers)
                              +:+ ") count mismatch")]).
Proof.
  intros Hdata Hlen. destruct data as [|record data]; [done|].
  destruct (format_refuses (record :: data) columns headers w Hlen)
    as (message & Hexit & ->).
  unfold display.print_table. run. by rewrite Hexit.
Qed.

End RendererMore.

Lemma format_rectangular_witness :
  fresh = fresh
  ∧ length [["Ada"; ""]] = length [ ({[ "Name" := VStr "Ada" ]} : dict) ]
  ∧ Forall (fun row => length row = length ["Name"; "Email"]
                       ∧ Forall (fun text => (PyStr.len text ≤ 50)%nat) row)
           [["Ada"; ""]].
Proof.
  apply (format_rectangular repr [ {[ "Name" := VStr "Ada" ]} ] ["Name"; "Email"]
           ["Student Name"; "Email Address"] fresh fresh).
  vm_compute. reflexivity.
Defined.

Lemma table_renderer_fails_witness :
  display.table failing_tabulate [["Ada"]] ["Student Name"] "grid" fresh
  = (Raise (SystemExit 1),
     logged fresh [Output Stderr "✗ Error formatting table: tabulate"]).
Proof.
  apply (table_renderer_fails failing_tabulate [["Ada"]] ["Student Name"] "grid"
           fresh fresh (OtherException "tabulate")).
  - discriminate.
  - reflexivity.
Defined.

Lemma print_table_prints_rendering_witness :
  display.print_table repr header_line_tabulate [ {[ "Name" := VStr "Ada" ]} ]
    ["Name"; "Email"] ["Student Name"; "Email Address"] fresh
  = (Return tt, logged fresh [Output Stdout "Student Name | Email Address"]).
Proof.
  apply (print_table_prints_rendering repr header_line_tabulate).
  - discriminate.
  - reflexivity.
  - reflexivity.
Defined.

Lemma print_table_mismatch_witness :
  display.print_table repr header_line_tabulate [ {[ "Name" := VStr "Ada" ]} ]
    ["Name"; "Email"] ["Student Name"] fresh
  = (Raise (SystemExit 1),
     logged fresh [Output Stderr "✗ Columns (2) and headers (1) count mismatch"]).
Proof.
  apply (print_table_mismatch repr header_line_tabulate).
  - discriminate.
  - simpl. lia.
Defined.

(** ** Strings, further *)

Section StringMore.

Import PyStr.

Lemma rev_app (a b : string) : rev (a +:+ b) = rev b +:+ rev a.
Proof.
  induction a as [|c a IH].
  - cbn [rev]. by rewrite app_empty_l, app_empty_r.
  - rewrite app_String. cbn [rev]. by rewrite IH, app_assoc_str.
Qed.

Lemma rev_involutive (s : string) : rev (rev s) = s.
Proof.
  induction s as [|c s IH]; [reflexivity|].
  cbn [rev]. rewrite rev_app, IH. reflexivity.
Qed.

Lemma lstrip_head (s : string) :
  lstrip s = "" ∨ ∃ c r, lstrip s = String c r ∧ isspace c = false.
Proof.
  induction s as [|c s IH]; [by left|].
  cbn [lstrip]. destruct (isspace c) eqn:E; [exact IH|].
  right. by exists c, s.
Qed.

Lemma lstrip_fixed (c : ascii) (r : string) :
  isspace c = false → lstrip (String c r) = String c r.
Proof. intros E. cbn [lstrip]. by rewrite E. Qed.

Lemma lstrip_idem (s : string) : lstrip (lstrip s) = lstrip s.
Proof.
  destruct (lstrip_head s) as [-> | (c & r & -> & E)]; [reflexivity|].
  by apply lstrip_fixed.
Qed.

Lemma lstrip_snoc (x : string) (c : ascii) :
  isspace c = false →
  lstrip (x +:+ String c "") = lstrip x +:+ String c "".
Proof.
  intros E. induction x as [|d x IH].
  - rewrite app_empty_l. cbn [lstrip]. by rewrite E.
  - rewrite app_String. cbn [lstrip]. destruct (isspace d); [exact IH|].
    by rewrite app_String.
Qed.

Lemma strip_lstrip (s : string) : strip (lstrip s) = strip s.
Proof. unfold strip. by rewrite lstrip_idem. Qed.

Lemma strip_cons (c : ascii) (r : string) :
  isspace c = false → strip (String c r) = String c (rev (lstrip (rev r))).
Proof.
  intros E. unfold strip. rewrite lstrip_fixed by done.
  cbn [rev]. rewrite lstrip_snoc by done. rewrite rev_app. reflexivity.
Qed.

(** Stripping what is stripped changes nothing. *)
Lemma strip_idem (s : string) : strip (strip s) = strip s.
Proof.
  rewrite <- (strip_lstrip s).
  destruct (lstrip_head s) as [-> | (c & r & -> & E)]; [reflexivity|].
  rewrite !strip_cons by done. f_equal.
  by rewrite rev_involutive, lstrip_idem.
Qed.

Lemma take_take (n : nat) (s : string) : take n (take n s) = take n s.
Proof. apply take_short. rewrite take_len. lia. Qed.

Lemma split_nonempty (sep : ascii) (s : string) : split sep s ≠ [].
Proof.
  induction s as [|c s IH]; [done|].
  cbn [split]. destruct (Ascii.eqb c sep); [done|].
  by destruct (split sep s).
Qed.

Lemma contains_cons (sep c : ascii) (s : string) :
  contains sep (String c s) = false →
  Ascii.eqb c sep = false ∧ contains sep s = false.
Proof.
  cbn [contains]. intros [H1 H2]%orb_false_elim. split; [|done].
  by rewrite Ascii.eqb_sym.
Qed.

(** A piece without the separator is cut off whole. *)
Lemma split_app_sep (sep : ascii) (p rest : string) :
  contains sep p = false →
  split sep (p +:+ String sep rest) = p :: split sep rest.
Proof.
  induction p as [|c p IH]; intros Hp.
  - rewrite app_empty_l. cbn [split]. by rewrite Ascii.eqb_refl.
  - apply contains_cons in Hp as [Hc Hp]. rewrite app_String.
    cbn [split]. by rewrite Hc, IH.
Qed.

Lemma split_no_sep (sep : ascii) (p : string) :
  contains sep p = false → split sep p = [p].
Proof.
  induction p as [|c p IH]; intros Hp; [reflexivity|].
  apply contains_cons in Hp as [Hc Hp]. cbn [split]. by rewrite Hc, IH.
Qed.

(** Splitting undoes joining, for pieces without the separator. *)
Lemma split_join (sep : ascii) (parts : list string) :
  parts ≠ [] →
  Forall (fun p => contains sep p = false) parts →
  split sep (join (String sep "") parts) = parts.
Proof.
  intros Hne Hparts. induction Hparts as [|p rest Hp Hrest IH]; [done|].
  destruct rest as [|q rest].
  - cbn [join]. by apply split_no_sep.
  - cbn [join]. rewrite app_String, app_empty_l.
    rewrite split_app_sep by done. f_equal. by apply IH.
Qed.

End StringMore.

(** ** The record transform, further *)

Section TransformMore.

Import PyStr gr.

Variable repr_container : value → string.

Abbreviation flatten_array_value := (flatten_array_value repr_container).
Abbreviation process_record := (process_record repr_container).
Abbreviation process := (process repr_container).

Lemma process_record_named (record : dict) (v : value) :
  record !! "Family name" = Some v →
  process_record record
  = <["Family name" := VStr (abbreviate_name (flatten_array_value v))]> record.
Proof. intros Hv. unfold gr.process_record. by rewrite Hv. Qed.

Lemma process_record_unnamed (record : dict) :
  record !! "Family name" = None → process_record record = record.
Proof. intros Hv. unfold gr.process_record. by rewrite Hv. Qed.

Lemma process_record_idem (record : dict) :
  process_record (process_record record) = process_record record.
Proof.
  destruct (record !! "Family name") as [v|] eqn:Hv.
  - rewrite (process_record_named record v) by done.
    rewrite (process_record_named _ (VStr (abbreviate_name (flatten_array_value v))))
      by apply lookup_insert_eq.
    rewrite insert_insert_eq. do 2 f_equal.
    change (abbreviate_name (abbreviate_name (flatten_array_value v))
            = abbreviate_name (flatten_array_value v)).
    apply take_take.
  - rewrite (process_record_unnamed record Hv). by apply process_record_unnamed.
Qed.

Lemma process_record_dom (record : dict) :
  dom (process_record record) = dom record.
Proof.
  unfold gr.process_record.
  destruct (record !! "Family name") as [v|] eqn:Hv; cbv zeta; [|done].
  apply dom_insert_lookup_L. by exists v.
Qed.

(** X9: transforming the transformed records changes nothing more. *)
Theorem process_idempotent (data : list dict) :
  process (Some (process (Some data))) = process (Some data).
Proof.
  rewrite !process_map, map_map.
  apply map_ext. intros record. apply process_record_idem.
Qed.

(** X10: every transformed record has the keys of the record it comes
    from, and its family name, if it has one, is a string of at most four
    characters. *)
Theorem process_keys_and_name (data : list dict) (i : nat) (processed : dict) :
  process (Some data) !! i = Some processed →
  ∃ record : dict,
    data !! i = Some record
    ∧ dom processed = dom record
    ∧ ∀ v, processed !! "Family name" = Some v →
           ∃ name, v = VStr name ∧ (len name ≤ 4)%nat.
Proof.
  rewrite process_map, list_lookup_fmap.
  destruct (data !! i) as [record|]; [|done].
  intros [= <-]. exists record. split; [done|].
  split; [apply process_record_dom|].
  intros v. unfold gr.process_record.
  destruct (record !! "Family name") as [old|] eqn:Hold; cbv zeta.
  - rewrite lookup_insert_eq. intros [= <-]. eexists. split; [done|].
    unfold abbreviate_name. rewrite take_len. lia.
  - by rewrite Hold.
Qed.

End TransformMore.

Section Columns.

Import PyStr gr.

Lemma parse_clean (names : list string) :
  Forall clean names →
  strip <$> filter (fun col => strip col ≠ EmptyString) names = names.
Proof.
  intros Hclean. induction Hclean as [|name names (Hne & Hstrip & _) _ IH];
    [reflexivity|].
  rewrite filter_cons_True by (by rewrite Hstrip).
  cbn [fmap list_fmap]. by rewrite Hstrip, IH.
Qed.

(** X11: no name that [parse_columns] returns is empty or has white
    space around it. *)
Theorem parse_columns_stripped (columns_str : string) :
  Forall (fun name => name ≠ "" ∧ strip name = name) (parse_columns columns_str).
Proof.
  unfold parse_columns. apply Forall_forall.
  intros name (col & -> & Hcol)%list_elem_of_fmap.
  apply list_elem_of_filter in Hcol as [Hne _].
  split; [exact Hne | apply strip_idem].
Qed.

(** X12: joining names with commas and parsing the result gives the
    names back, for names that are not empty, have no white space around
    them and hold no comma; headers are parsed the same way. *)
Theorem parse_columns_join (names : list string) :
  Forall clean names →
  parse_columns (join "," names) = names
  ∧ parse_headers (join "," names) = names.
Proof.
  intros Hclean.
  assert (Hparse : parse_columns (join "," names) = names).
  { unfold parse_columns. destruct names as [|name names]; [reflexivity|].
    rewrite split_join.
    - by apply parse_clean.
    - done.
    - eapply Forall_impl; [exact Hclean|]. by intros n (_ & _ & Hc). }
  split; [exact Hparse|]. exact Hparse.
Qed.

End Columns.

Lemma process_keys_and_name_witness :
  ∃ record : dict,
    [ ({[ "Family name" := VList [VStr "Elizabeth"] ]} : dict) ] !! 0%nat = Some record
    ∧ dom ({[ "Family name" := VStr "Eliz" ]} : dict) = dom record
    ∧ ∀ v, ({[ "Family name" := VStr "Eliz" ]} : dict) !! "Family name" = Some v →
           ∃ name, v = VStr name ∧ (PyStr.len name ≤ 4)%nat.
Proof.
  apply (process_keys_and_name repr [ {[ "Family name" := VList [VStr "Elizabeth"] ]} ]
           0%nat).
  vm_compute. reflexivity.
Defined.

Lemma parse_columns_join_witness :
  gr.parse_columns "Name,Email" = ["Name"; "Email"]
  ∧ gr.parse_headers "Name,Email" = ["Name"; "Email"].
Proof.
  apply (parse_columns_join ["Name"; "Email"]).
  repeat constructor; discriminate.
Defined.

(** ** The command, from fetch to display *)

Section Command.

Import PyStr config gr.

Variable repr_container : value → string.
Variable tabulate : list (list string) → list string → string → M string.
Variable airtable_get : value → value → M (list dict).

Abbreviation run := (run repr_container tabulate airtable_get).
Abbreviation process := (process repr_container).
Abbreviation print_table := (display.print_table repr_container tabulate).

Lemma loaded_environ_logged (w : world) (events : list event) :
  loaded_environ (logged w events) = loaded_environ w.
Proof. reflexivity. Qed.

Lemma loaded_environ_same (w w' : world) :
  environ w' = environ w → dotenv w' = dotenv w →
  loaded_environ w' = loaded_environ w.
Proof. intros He Hd. unfold loaded_environ. by rewrite He, Hd. Qed.

(** X13: when a required variable is missing, [run] prints its first
    line, then the configuration error and tip, and exits with code 1;
    the fetch is never reached, whatever it would do. *)
Theorem run_without_configuration (args : list string) (w : world) :
  falsy (loaded_environ w !! "AIRTABLE_API_KEY") = true
  ∨ falsy (loaded_environ w !! "AIRTABLE_VIEW_URL") = true →
  ∃ key events,
    run args w = (Raise (SystemExit 1), loaded (logged w [fetching]) events)
    ∧ key ∈ required_vars
    ∧ printed Stderr events
      = ["Error: Required environment variable " +:+ key +:+ " not set";
         "Tip: Copy .env.example to .env and add your credentials"]
    ∧ printed Stdout events = [].
Proof.
  intros Hmissing. unfold gr.run, display.print_info, fetch. run.
  change (World (environ w) (dotenv w) (trace w ++ [_]))
    with (logged w [fetching]).
  rewrite validate_run, loaded_environ_logged. cbv zeta.
  destruct (falsy (loaded_environ w !! "AIRTABLE_API_KEY")) eqn:Hk.
  - eexists "AIRTABLE_API_KEY", _. split; [reflexivity|].
    split; [unfold required_vars; rewrite !elem_of_cons; auto|]. done.
  - destruct Hmissing as [Hk'|Hu]; [congruence|]. rewrite Hu.
    eexists "AIRTABLE_VIEW_URL", _. split; [reflexivity|].
    split; [unfold required_vars; rewrite !elem_of_cons; auto|]. done.
Qed.

Lemma config_of_api_key (env : gmap string string) (k u : string) :
  config_of env k u !! "AIRTABLE_API_KEY" = Some (VStr k).
Proof. reflexivity. Qed.

Lemma config_of_view_url (env : gmap string string) (k u : string) :
  config_of env k u !! "AIRTABLE_VIEW_URL" = Some (VStr u).
Proof. reflexivity. Qed.

Lemma config_of_columns (env : gmap string string) (k u : string) :
  config_of env k u !! "GR_COLUMNS"
  = Some (VStr (default "Name,Email,Status,Date" (env !! "GR_COLUMNS"))).
Proof. reflexivity. Qed.

Lemma config_of_headers (env : gmap string string) (k u : string) :
  config_of env k u !! "GR_HEADERS"
  = Some (VStr (default "Student Name,Email Address,Current Status,Last Updated"
                        (env !! "GR_HEADERS"))).
Proof. reflexivity. Qed.

Lemma falsy_some (s : string) : s ≠ "" → falsy (Some s) = false.
Proof. by destruct s. Qed.

(** X14: with the two required variables set and a fetch that returns
    records and leaves the environment alone, [run] prints its first
    line, validates, fetches with the key and the address of the
    configuration, validates again, and then prints the table of the
    transformed records under the parsed columns and headers, followed by
    the count of the transformed records. *)
Theorem run_pipeline (args : list string) (w w' : world)
    (api_key view_url : string) (data : list dict) :
  loaded_environ w !! "AIRTABLE_API_KEY" = Some api_key → api_key ≠ "" →
  loaded_environ w !! "AIRTABLE_VIEW_URL" = Some view_url → view_url ≠ "" →
  airtable_get (VStr api_key) (VStr view_url)
               (loaded (logged w [fetching]) validate_events)
  = (Return data, w') →
  environ w' = loaded_environ w → dotenv w' = dotenv w →
  run args w
  = (print_table (process (Some data))
       (parse_columns (default "Name,Email,Status,Date"
                               (loaded_environ w !! "GR_COLUMNS")))
       (parse_headers (default "Student Name,Email Address,Current Status,Last Updated"
                               (loaded_environ w !! "GR_HEADERS"))) ;;
     display.print_success
       ("Displayed " +:+ of_nat (length (process (Some data))) +:+ " records"))
      (loaded w' validate_events).
Proof.
  intros Hk Hk0 Hu Hu0 Hfetch Henv Hfile.
  assert (Hloaded : loaded_environ w' = loaded_environ w).
  { unfold loaded_environ at 1. rewrite Henv, Hfile.
    unfold loaded_environ. destruct (dotenv w) as [file|]; [|done].
    by rewrite <- (assoc_L (∪)), (idemp_L (∪) file). }
  unfold gr.run, display.print_info, fetch, display_data. run.
  change (World (environ w) (dotenv w) (trace w ++ [_]))
    with (logged w [fetching]).
  rewrite validate_run, loaded_environ_logged. cbv zeta.
  rewrite Hk, Hu, !falsy_some by done. cbn [default].
  unfold getitem. rewrite config_of_api_key, config_of_view_url. run. unfold id.
  rewrite Hfetch.
  rewrite validate_run, Hloaded. cbv zeta.
  rewrite Hk, Hu, !falsy_some by done. cbn [default].
  rewrite config_of_columns, config_of_headers. unfold id.
  reflexivity.
Qed.

End Command.

Lemma run_without_configuration_witness :
  ∃ key events,
    gr.run repr failing_tabulate no_records [] fresh
    = (Raise (SystemExit 1), loaded (logged fresh [fetching]) events)
    ∧ key ∈ config.required_vars
    ∧ printed Stderr events
      = ["Error: Required environment variable " +:+ key +:+ " not set";
         "Tip: Copy .env.example to .env and add your credentials"]
    ∧ printed Stdout events = [].
Proof.
  apply (run_without_configuration repr failing_tabulate no_records [] fresh).
  left. reflexivity.
Defined.

Lemma run_pipeline_witness :
  gr.run repr failing_tabulate no_records [] sample_world
  = (Return tt,
     logged (loaded (loaded (logged sample_world [fetching]) validate_events)
                    validate_events)
            [Output Stdout "No data available";
             Output Stdout "✓ Displayed 0 records"]).
Proof.
  rewrite (run_pipeline repr failing_tabulate no_records [] sample_world
             (loaded (logged sample_world [fetching]) validate_events)
             "key123" "https://airtable.com/appA1/tblB2/viwC3" []).
  - vm_compute. reflexivity.
  - reflexivity.
  - discriminate.
  - reflexivity.
  - discriminate.
  - reflexivity.
  - reflexivity.
  - reflexivity.
Defined.

(** ** The command dispatcher, further *)

Section DispatchMore.

Import PyStr config fac.

Variable repr_container : value → string.
Variable tabulate : list (list string) → list string → string → M string.
Variable airtable_get : value → value → M (list dict).

Abbreviation run_gr := (run_gr repr_container tabulate airtable_get).
Abbreviation dispatch := (dispatch repr_container tabulate airtable_get).
Abbreviation route := (route repr_container tabulate airtable_get).

(** The handler of [except Exception] in [dispatch]. *)
Lemma debug_handler (e : exn) (msg : string) (w : world) :
  ((debug ← config.get "FAC_CLI_DEBUG" (Some "false");
    debug ← as_str "lower" debug;
    if String.eqb (lower debug) "true"
    then raise e
    else print Stderr ("Error: " +:+ msg) ;; sys_exit 1) : M unit) w
  = if String.eqb (lower (default "false" (environ w !! "FAC_CLI_DEBUG"))) "true"
    then (Raise e, logged w [Getenv "FAC_CLI_DEBUG"])
    else (Raise (SystemExit 1),
          logged w [Getenv "FAC_CLI_DEBUG"; Output Stderr ("Error: " +:+ msg)]).
Proof.
  unfold mbind, M_bind, bind. rewrite get_run. unfold getenv.
  assert (Hd : match environ w !! "FAC_CLI_DEBUG" with
               | Some v => Some v
               | None => Some "false"
               end = Some (default "false" (environ w !! "FAC_CLI_DEBUG")))
    by (by destruct (environ w !! "FAC_CLI_DEBUG")).
  rewrite Hd. unfold as_str, mret, M_ret, ret.
  destruct (String.eqb (lower (default "false" (environ w !! "FAC_CLI_DEBUG"))) "true").
  - reflexivity.
  - unfold logged, print, emit, sys_exit, raise. cbn. by rewrite <- app_assoc.
Qed.

(** The [gr] command as [dispatch] runs it. *)
Lemma dispatch_gr (args : list string) (w : world) :
  dispatch "gr" args w
  = match (validate ;; run_gr args) w with
    | (Return a, w') => (Return a, w')
    | (Raise KeyboardInterrupt, w') =>
        (Raise (SystemExit 130),
         logged w' [Output Stderr (String "010" "Operation cancelled by user")])
    | (Raise (SystemExit code), w') => (Raise (SystemExit code), w')
    | (Raise (ImportError msg as e), w') | (Raise (OtherException msg as e), w') =>
        if String.eqb (lower (default "false" (environ w' !! "FAC_CLI_DEBUG"))) "true"
        then (Raise e, logged w' [Getenv "FAC_CLI_DEBUG"])
        else (Raise (SystemExit 1),
              logged w' [Getenv "FAC_CLI_DEBUG"; Output Stderr ("Error: " +:+ msg)])
    end.
Proof.
  unfold fac.dispatch.
  change (bool_decide ("gr" ∈ help_commands)) with false. cbv iota zeta.
  rewrite lookup_singleton_eq. unfold try_except.
  destruct ((validate ;; run_gr args) w) as [[a|[code| |msg|msg]] w'];
    try reflexivity; apply debug_handler.
Qed.

Lemma validated_run (args : list string) (w w1 : world) (cfg : dict) :
  validate w = (Return cfg, w1) →
  (validate ;; run_gr args) w = run_gr args w1.
Proof. intros Hv. unfold mbind, M_bind, bind. by rewrite Hv. Qed.

(** X15: a command that is neither a help command nor [gr] is reported
    on the error stream with the usage hint, and the process exits with
    code 1; the configuration is not looked at. *)
Theorem dispatch_unknown_command (command : string) (args : list string) (w : world) :
  command ∉ help_commands → command ≠ "gr" →
  dispatch command args w
  = (Raise (SystemExit 1),
     logged w [Output Stderr ("Error: Unknown command: " +:+ command);
               Output Stderr "Use './fac.py help' for usage information"]).
Proof.
  intros Hhelp Hgr. unfold fac.dispatch.
  rewrite bool_decide_false by done. cbv zeta.
  rewrite lookup_singleton_ne by done.
  unfold show_error, logged. run. cbn. by rewrite <- app_assoc.
Qed.

(** X16: an interrupt while [gr] runs is caught: the process says so on
    the error stream and exits with code 130. *)
Theorem dispatch_interrupt (args : list string) (w w1 w2 : world) (cfg : dict) :
  validate w = (Return cfg, w1) →
  run_gr args w1 = (Raise KeyboardInterrupt, w2) →
  dispatch "gr" args w
  = (Raise (SystemExit 130),
     logged w2 [Output Stderr (String "010" "Operation cancelled by user")]).
Proof.
  intros Hv Hrun. by rewrite dispatch_gr, (validated_run args w w1 cfg Hv), Hrun.
Qed.

(** X17: an exception while [gr] runs is reported as [Error: <message>]
    on the error stream with exit code 1, unless [FAC_CLI_DEBUG], read
    from the environment at that moment, is [true] in any letter case:
    then the exception is raised again. *)
Theorem dispatch_exception (args : list string) (w w1 w2 : world) (cfg : dict)
    (msg : string) :
  validate w = (Return cfg, w1) →
  run_gr args w1 = (Raise (OtherException msg), w2) →
  dispatch "gr" args w
  = if String.eqb (lower (default "false" (environ w2 !! "FAC_CLI_DEBUG"))) "true"
    then (Raise (OtherException msg), logged w2 [Getenv "FAC_CLI_DEBUG"])
    else (Raise (SystemExit 1),
          logged w2 [Getenv "FAC_CLI_DEBUG"; Output Stderr ("Error: " +:+ msg)]).
Proof.
  intros Hv Hrun. by rewrite dispatch_gr, (validated_run args w w1 cfg Hv), Hrun.
Qed.

(** X18: what [gr] ends with otherwise is what [dispatch] ends with: a
    normal return, or an exit with the code the command chose. *)
Theorem dispatch_passes (args : list string) (w w1 w2 : world) (cfg : dict)
    (o : outcome unit) :
  validate w = (Return cfg, w1) →
  run_gr args w1 = (o, w2) →
  o = Return tt ∨ (∃ code, o = Raise (SystemExit code)) →
  dispatch "gr" args w = (o, w2).
Proof.
  intros Hv Hrun Ho. rewrite dispatch_gr, (validated_run args w w1 cfg Hv), Hrun.
  by destruct Ho as [-> | [code ->]].
Qed.

(** X19: [gr] with a required variable missing ends in the configuration
    error, message and tip, with exit code 1; the command itself does not
    start: nothing reaches the standard output. *)
Theorem dispatch_missing_configuration (args : list string) (w : world) :
  falsy (loaded_environ w !! "AIRTABLE_API_KEY") = true
  ∨ falsy (loaded_environ w !! "AIRTABLE_VIEW_URL") = true →
  ∃ key events,
    dispatch "gr" args w = (Raise (SystemExit 1), loaded w events)
    ∧ key ∈ required_vars
    ∧ printed Stderr events
      = ["Error: Required environment variable " +:+ key +:+ " not set";
         "Tip: Copy .env.example to .env and add your credentials"]
    ∧ printed Stdout events = [].
Proof.
  intros Hmissing. rewrite dispatch_gr.
  unfold mbind, M_bind, bind. rewrite validate_run. cbv zeta.
  destruct (falsy (loaded_environ w !! "AIRTABLE_API_KEY")) eqn:Hk.
  - eexists "AIRTABLE_API_KEY", _. split; [reflexivity|].
    split; [unfold required_vars; rewrite !elem_of_cons; auto|]. done.
  - destruct Hmissing as [Hk'|Hu]; [congruence|]. rewrite Hu.
    eexists "AIRTABLE_VIEW_URL", _. split; [reflexivity|].
    split; [unfold required_vars; rewrite !elem_of_cons; auto|]. done.
Qed.

(** X20: with a command on the command line, [parse] takes the argument
    list apart without loss: the program name, the command, and all that
    follows, in order. *)
Theorem parse_passes_arguments (args : list string) :
  (2 ≤ length args)%nat →
  ∃ prog, args = prog :: (parse args).1 :: (parse args).2.
Proof.
  intros Hlen. destruct args as [|prog [|command rest]]; cbn in Hlen; try lia.
  exists prog. by rewrite parse_command.
Qed.

(** X21: an [ImportError] that comes out of the command is reported as
    the missing command module, with the configuration tip and exit
    code 1. *)
Theorem run_gr_import_error (args : list string) (w w' : world) (msg : string) :
  gr.run repr_container tabulate airtable_get args w = (Raise (ImportError msg), w') →
  run_gr args w
  = (Raise (SystemExit 1),
     logged w' [Output Stderr "Error: Gateway recent command module not found";
                Output Stderr "Tip: Copy .env.example to .env and add your credentials"]).
Proof.
  intros Hrun. unfold fac.run_gr, try_except. rewrite Hrun.
  unfold config.error, logged. run. cbn. by rewrite <- app_assoc.
Qed.

End DispatchMore.

Lemma dispatch_unknown_command_witness :
  fac.dispatch repr failing_tabulate no_records "status" [] fresh
  = (Raise (SystemExit 1),
     logged fresh [Output Stderr "Error: Unknown command: status";
                   Output Stderr "Use './fac.py help' for usage information"]).
Proof.
  apply (dispatch_unknown_command repr failing_tabulate no_records "status" [] fresh).
  - unfold fac.help_commands. rewrite !elem_of_cons, elem_of_nil.
    intros [H | [H | [H | []]]]; discriminate H.
  - discriminate.
Defined.

Lemma dispatch_interrupt_witness :
  fac.dispatch repr failing_tabulate interrupted_fetch "gr" [] sample_world
  = (Raise (SystemExit 130),
     logged sample_fetch_world
            [Output Stderr (String "010" "Operation cancelled by user")]).
Proof.
  apply (dispatch_interrupt repr failing_tabulate interrupted_fetch [] sample_world
           (loaded sample_world validate_events) sample_fetch_world
           (config_of sample_environ "key123" "https://airtable.com/appA1/tblB2/viwC3")).
  - vm_compute. reflexivity.
  - vm_compute. reflexivity.
Defined.

Lemma dispatch_exception_witness :
  fac.dispatch repr failing_tabulate broken_fetch "gr" [] sample_world
  = (Raise (SystemExit 1),
     logged sample_fetch_world
            [Getenv "FAC_CLI_DEBUG"; Output Stderr "Error: boom"]).
Proof.
  apply (dispatch_exception repr failing_tabulate broken_fetch [] sample_world
           (loaded sample_world validate_events) sample_fetch_world
           (config_of sample_environ "key123" "https://airtable.com/appA1/tblB2/viwC3")
           "boom").
  - vm_compute. reflexivity.
  - vm_compute. reflexivity.
Defined.

Lemma dispatch_passes_witness :
  fac.dispatch repr failing_tabulate no_records "gr" [] sample_world
  = (Return tt,
     logged (loaded sample_fetch_world validate_events)
            [Output Stdout "No data available";
             Output Stdout "✓ Displayed 0 records"]).
Proof.
  apply (dispatch_passes repr failing_tabulate no_records [] sample_world
           (loaded sample_world validate_events) _
           (config_of sample_environ "key123" "https://airtable.com/appA1/tblB2/viwC3")).
  - vm_compute. reflexivity.
  - vm_compute. reflexivity.
  - by left.
Defined.

Lemma dispatch_missing_configuration_witness :
  ∃ key events,
    fac.dispatch repr failing_tabulate no_records "gr" [] fresh
    = (Raise (SystemExit 1), loaded fresh events)
    ∧ key ∈ config.required_vars
    ∧ printed Stderr events
      = ["Error: Required environment variable " +:+ key +:+ " not set";
         "Tip: Copy .env.example to .env and add your credentials"]
    ∧ printed Stdout events = [].
Proof.
  apply (dispatch_missing_configuration repr failing_tabulate no_records [] fresh).
  left. reflexivity.
Defined.

Lemma parse_passes_arguments_witness :
  ∃ prog,
    ["fac.py"; "gr"; "--limit"; "5"]
    = prog :: (fac.parse ["fac.py"; "gr"; "--limit"; "5"]).1
           :: (fac.parse ["fac.py"; "gr"; "--limit"; "5"]).2.
Proof.
  apply (parse_passes_arguments ["fac.py"; "gr"; "--limit"; "5"]).
  simpl. lia.
Defined.

Lemma run_gr_import_error_witness :
  fac.run_gr repr failing_tabulate importing_fetch [] sample_world
  = (Raise (SystemExit 1),
     logged (loaded (logged sample_world [fetching]) validate_events)
       [Output Stderr "Error: Gateway recent command module not found";
        Output Stderr "Tip: Copy .env.example to .env and add your credentials"]).
Proof.
  apply (run_gr_import_error repr failing_tabulate importing_fetch [] sample_world _
           "No module named 'requests'").
  vm_compute. reflexivity.
Defined.

(** ** The remote data source *)

Section Extract.

Import airtable.

Lemma extract_loop_dicts (records extracted : list value) (w : world) :
  Forall (fun record => is_dict record = true) records →
  extract_loop records extracted w
  = (Return (extracted ++ omap fields_of records), w).
Proof.
  intros Hdicts. revert extracted.
  induction Hdicts as [|record records Hdict _ IH]; intros extracted.
  - cbn. by rewrite app_nil_r.
  - destruct record as [| | | | |?|items]; try discriminate Hdict.
    cbn [extract_loop py_in fields_of omap list_omap]. run.
    destruct (dict_get "fields" items) as [fields|] eqn:Hf.
    + rewrite bool_decide_true by eauto. cbn [subscript]. rewrite Hf. run.
      rewrite IH. by rewrite <- app_assoc.
    + rewrite bool_decide_false by (by intros [? ?]). apply IH.
Qed.

(** X22: from a list of JSON objects [extract] returns the [fields] of
    those that have the key, in the order of the list; the others are
    dropped without an error, and nothing is printed. *)
Theorem extract_records (records : list value) (w : world) :
  Forall (fun record => is_dict record = true) records →
  extract (VList records) w = (Return (omap fields_of records), w).
Proof.
  intros Hdicts. unfold extract. cbn [py_iter]. run.
  by rewrite extract_loop_dicts.
Qed.

(** X23: a record that is a number, a boolean or null is not dropped: it
    makes [extract] raise, and the fields found before it are lost. *)
Theorem extract_scalar_record (before after : list value) (record : value)
    (w : world) :
  Forall (fun record => is_dict record = true) before →
  is_scalar record = true →
  ∃ msg,
    extract (VList (before ++ record :: after)) w = (Raise (OtherException msg), w).
Proof.
  intros Hdicts Hscalar. unfold extract. cbn [py_iter]. run.
  generalize (@nil value) as extracted.
  induction Hdicts as [|first before Hdict _ IH]; intros extracted.
  - cbn [app extract_loop]. run.
    destruct record; try discriminate Hscalar; cbn; eauto.
  - destruct first as [| | | | |?|items]; try discriminate Hdict.
    cbn [app extract_loop py_in]. run.
    destruct (dict_get "fields" items) as [fields|] eqn:Hf.
    + rewrite bool_decide_true by eauto. cbn [subscript]. rewrite Hf. run.
      apply IH.
    + rewrite bool_decide_false by (by intros [? ?]). apply IH.
Qed.

End Extract.

Section Client.

Import airtable.

Variable requests_get : string → gmap string string → Z → M requests_result.

Abbreviation request := (request requests_get).
Abbreviation get := (get requests_get).

(** [request] as a decision list over what [requests.get] ends with. *)
Lemma request_run (url : string) (headers : gmap string string) (timeout : Z)
    (w : world) :
  request url headers timeout w
  = match requests_get url headers timeout w with
    | (Return (Responded r), w1) =>
        if (400 <=? status_code r) && (status_code r <? 600)
        then (Raise (SystemExit 1),
              after_error w1
                (if status_code r =? 401
                 then "Invalid Airtable API key. Check your credentials in .env file."
                 else if status_code r =? 404
                 then "Airtable view not found. Check your AIRTABLE_VIEW_URL in .env file."
                 else if status_code r =? 429
                 then "Airtable API rate limit exceeded. Please try again later."
                 else "Airtable API error: " +:+ PyStr.of_Z (status_code r) +:+ " - "
                      +:+ text r))
        else (Return r, w1)
    | (Return Timeout, w1) =>
        (Raise (SystemExit 1),
         after_error w1 "Request timed out. Check your internet connection.")
    | (Return ConnectionError, w1) =>
        (Raise (SystemExit 1),
         after_error w1 "Unable to connect to Airtable. Check your internet connection.")
    | (Raise (ImportError msg), w1) | (Raise (OtherException msg), w1) =>
        (Raise (SystemExit 1),
         after_error w1 ("Unexpected error connecting to Airtable: " +:+ msg))
    | (Raise e, w1) => (Raise e, w1)
    end.
Proof.
  unfold airtable.request, try_except, mbind, M_bind, bind.
  destruct (requests_get url headers timeout w) as [[[r| |]|[code| |msg|msg]] w1];
    try reflexivity.
  cbv zeta. destruct ((400 <=? status_code r) && (status_code r <? 600)); [|reflexivity].
  destruct (status_code r =? 401); [reflexivity|].
  destruct (status_code r =? 404); [reflexivity|].
  destruct (status_code r =? 429); reflexivity.
Qed.

(** X24: when the transport fails, with a timeout, a failed connection
    or any other exception, [request] prints one error line that tells
    which and exits with code 1; it does not try again. *)
Theorem request_transport_failure (url : string) (headers : gmap string string)
    (timeout : Z) (w w1 : world) (o : outcome requests_result) (message : string) :
  requests_get url headers timeout w = (o, w1) →
  (o = Return Timeout
   ∧ message = "Request timed out. Check your internet connection.")
  ∨ (o = Return ConnectionError
     ∧ message = "Unable to connect to Airtable. Check your internet connection.")
  ∨ (∃ msg, o = Raise (OtherException msg)
            ∧ message = "Unexpected error connecting to Airtable: " +:+ msg) →
  request url headers timeout w
  = (Raise (SystemExit 1), logged w1 [Output Stderr ("Error: " +:+ message)]).
Proof.
  intros Hget Hfail. rewrite request_run, Hget.
  destruct Hfail as [[-> ->] | [[-> ->] | (msg & -> & ->)]]; reflexivity.
Qed.

(** X25: a response with a status from 400 to 599 ends [request] with
    exit code 1 and one error line: its own text for 401, 404 and 429,
    and for every other such status a line with the status and the body
    of the response. *)
Theorem request_http_error (url : string) (headers : gmap string string)
    (timeout : Z) (w w1 : world) (r : response) :
  requests_get url headers timeout w = (Return (Responded r), w1) →
  400 ≤ status_code r < 600 →
  request url headers timeout w
  = (Raise (SystemExit 1),
     logged w1
       [Output Stderr
          ("Error: " +:+
           (if status_code r =? 401
            then "Invalid Airtable API key. Check your credentials in .env file."
            else if status_code r =? 404
            then "Airtable view not found. Check your AIRTABLE_VIEW_URL in .env file."
            else if status_code r =? 429
            then "Airtable API rate limit exceeded. Please try again later."
            else "Airtable API error: " +:+ PyStr.of_Z (status_code r) +:+ " - "
                 +:+ text r))]).
Proof.
  intros Hget [Hlo Hhi]. rewrite request_run, Hget.
  apply Z.leb_le in Hlo. apply Z.ltb_lt in Hhi. by rewrite Hlo, Hhi.
Qed.

(** X26: a response that [request] returns is the response of the
    transport, its status is not from 400 to 599, and [request] has
    printed nothing. *)
Theorem request_returns (url : string) (headers : gmap string string)
    (timeout : Z) (w w' : world) (r : response) :
  request url headers timeout w = (Return r, w') →
  requests_get url headers timeout w = (Return (Responded r), w')
  ∧ ¬ (400 ≤ status_code r < 600).
Proof.
  rewrite request_run.
  destruct (requests_get url headers timeout w) as [[[r'| |]|[code| |msg|msg]] w1];
    try discriminate.
  destruct ((400 <=? status_code r') && (status_code r' <? 600)) eqn:E;
    [discriminate|].
  intros [= <- <-]. split; [reflexivity|].
  intros [Hlo Hhi]. apply Z.leb_le in Hlo. apply Z.ltb_lt in Hhi.
  by rewrite Hlo, Hhi in E.
Qed.

(** X27: without an API key or without a view address, [get] prints its
    error and exits with code 1 before anything else: no address is
    converted and no request is made. *)
Theorem get_requires_credentials (api_key view_url : string) (w : world) :
  api_key = "" ∨ view_url = "" →
  get api_key view_url w
  = (Raise (SystemExit 1),
     logged w [Output Stderr "Error: Airtable API key and view URL are required"]).
Proof.
  intros Hempty. unfold airtable.get.
  assert (Hcheck : String.eqb api_key "" || String.eqb view_url "" = true).
  { destruct Hempty as [-> | ->]; [reflexivity|]. apply orb_true_r. }
  rewrite Hcheck. reflexivity.
Qed.

Lemma get_converted (api_key view_url : string) (w : world) :
  api_key ≠ "" → view_url ≠ "" →
  get api_key view_url w
  = match convert_url view_url w with
    | (Return api_url, w0) =>
        match request api_url (auth api_key) 30 w0 with
        | (Return response, w1) =>
            match json response with
            | Some data =>
                (has_records ← py_in "records" data;
                 when (negb has_records)
                      (error "Unexpected response format from Airtable. Missing 'records' field." 1) ;;
                 records ← subscript data "records";
                 extract records) w1
            | None =>
                (Raise (SystemExit 1),
                 after_error w1 "Invalid response from Airtable API. Expected JSON.")
            end
        | (Raise e, w1) => (Raise e, w1)
        end
    | (Raise e, w0) => (Raise e, w0)
    end.
Proof.
  intros Hk Hu. unfold airtable.get.
  apply String.eqb_neq in Hk, Hu. rewrite Hk, Hu. cbn [orb when].
  unfold mbind, M_bind, bind. cbn [mret M_ret ret].
  destruct (convert_url view_url w) as [[api_url|e] w0]; [|reflexivity].
  destruct (request api_url (auth api_key) 30 w0) as [[response|e] w1]; [|reflexivity].
  destruct (json response) as [data|]; reflexivity.
Qed.

(** X28: with a key, a view address that is not empty and has a
    URL-shape error ends [get] with the error of the conversion and exit
    code 1; no request is made. *)
Theorem get_bad_url (api_key view_url : string) (w : world) :
  api_key ≠ "" → view_url ≠ "" → url_shape_error view_url = true →
  ∃ message,
    message ∈ [msg_format; msg_parts; msg_components]
    ∧ get api_key view_url w
      = (Raise (SystemExit 1), logged w [Output Stderr ("Error: " +:+ message)]).
Proof.
  intros Hk Hu Hshape.
  rewrite get_converted by done. revert Hshape.
  unfold url_shape_error. rewrite convert_url_cases. cbv zeta.
  destruct (PyStr.startswith view_url api_prefix); [done|]. cbn [negb andb].
  destruct (PyStr.startswith view_url web_prefix); cbn [negb orb].
  - destruct (length (path_parts view_url) <? 3)%nat; cbn [orb].
    + intros _. exists msg_parts. split; [|reflexivity].
      rewrite !elem_of_cons. auto.
    + destruct (well_prefixed (path_parts view_url)); cbn [negb]; [done|].
      intros _. exists msg_components. split; [|reflexivity].
      rewrite !elem_of_cons. auto.
  - intros _. exists msg_format. split; [|reflexivity].
    rewrite !elem_of_cons. auto.
Qed.

(** X29: with a key and an accepted view address, when the transport
    answers the converted address, asked with the bearer headers and a
    timeout of 30, by a response outside the statuses 400 to 599 whose
    JSON body is an object with a [records] list of objects, [get] returns
    the [fields] of the records that have them, in order, and prints
    nothing. *)
Theorem get_returns_fields (api_key view_url api_url : string) (w w1 : world)
    (r : response) (items : list (string * value)) (records : list value) :
  api_key ≠ "" →
  convert_url view_url w = (Return api_url, w) →
  requests_get api_url (auth api_key) 30 w = (Return (Responded r), w1) →
  ¬ (400 ≤ status_code r < 600) →
  json r = Some (VDict items) →
  dict_get "records" items = Some (VList records) →
  Forall (fun record => is_dict record = true) records →
  get api_key view_url w = (Return (omap fields_of records), w1).
Proof.
  intros Hk Hconv Hget Hstatus Hjson Hrecords Hdicts.
  assert (Hu : view_url ≠ "").
  { intros ->. rewrite convert_url_cases in Hconv. discriminate Hconv. }
  rewrite get_converted, Hconv, request_run, Hget by done.
  destruct ((400 <=? status_code r) && (status_code r <? 600)) eqn:E.
  { apply andb_prop in E as [Hlo%Z.leb_le Hhi%Z.ltb_lt]. by destruct Hstatus. }
  rewrite Hjson. cbn [py_in]. run.
  rewrite bool_decide_true by (by rewrite Hrecords). cbn [negb subscript].
  rewrite Hrecords. run. unfold extract. cbn [py_iter]. run.
  by rewrite extract_loop_dicts.
Qed.

(** X30: a response outside the statuses 400 to 599 whose body is not
    JSON, or is a JSON object without the key [records], ends [get] with
    the error line for that case and exit code 1. *)
Theorem get_malformed_response (api_key view_url api_url : string) (w w1 : world)
    (r : response) (message : string) :
  api_key ≠ "" →
  convert_url view_url w = (Return api_url, w) →
  requests_get api_url (auth api_key) 30 w = (Return (Responded r), w1) →
  ¬ (400 ≤ status_code r < 600) →
  (json r = None
   ∧ message = "Invalid response from Airtable API. Expected JSON.")
  ∨ (∃ items, json r = Some (VDict items) ∧ dict_get "records" items = None
              ∧ message = "Unexpected response format from Airtable. Missing 'records' field.") →
  get api_key view_url w
  = (Raise (SystemExit 1), logged w1 [Output Stderr ("Error: " +:+ message)]).
Proof.
  intros Hk Hconv Hget Hstatus Hshape.
  assert (Hu : view_url ≠ "").
  { intros ->. rewrite convert_url_cases in Hconv. discriminate Hconv. }
  rewrite get_converted, Hconv, request_run, Hget by done.
  destruct ((400 <=? status_code r) && (status_code r <? 600)) eqn:E.
  { apply andb_prop in E as [Hlo%Z.leb_le Hhi%Z.ltb_lt]. by destruct Hstatus. }
  destruct Hshape as [[-> ->] | (items & -> & Hnone & ->)]; [reflexivity|].
  cbn [py_in]. run.
  rewrite bool_decide_false by (rewrite Hnone; by intros [? ?]).
  reflexivity.
Qed.

End Client.

Lemma extract_records_witness :
  airtable.extract (VList sample_records) fresh
  = (Return [VDict [("Name", VStr "Ada")]], fresh).
Proof.
  apply (extract_records sample_records fresh). repeat constructor.
Defined.

Lemma extract_scalar_record_witness :
  ∃ msg,
    airtable.extract (VList (sample_records ++ VNone :: [])) fresh
    = (Raise (OtherException msg), fresh).
Proof.
  apply (extract_scalar_record sample_records [] VNone fresh).
  - repeat constructor.
  - reflexivity.
Defined.

Lemma request_transport_failure_witness :
  airtable.request timing_out "https://api.airtable.com/v0/appA1/tblB2?view=viwC3"
    (airtable.auth "key123") 30 fresh
  = (Raise (SystemExit 1),
     logged fresh
       [Output Stderr "Error: Request timed out. Check your internet connection."]).
Proof.
  apply (request_transport_failure timing_out _ _ 30 fresh fresh
           (Return airtable.Timeout)).
  - reflexivity.
  - left. split; reflexivity.
Defined.

Lemma request_http_error_witness :
  airtable.request (answering (airtable.Response 503 "busy" None))
    "https://api.airtable.com/v0/appA1/tblB2?view=viwC3" (airtable.auth "key123") 30 fresh
  = (Raise (SystemExit 1),
     logged fresh [Output Stderr "Error: Airtable API error: 503 - busy"]).
Proof.
  apply (request_http_error (answering (airtable.Response 503 "busy" None)) _ _ 30
           fresh fresh (airtable.Response 503 "busy" None)).
  - reflexivity.
  - cbn. lia.
Defined.

Lemma request_returns_witness :
  answering sample_response "https://api.airtable.com/v0/appA1/tblB2?view=viwC3"
    (airtable.auth "key123") 30 fresh
  = (Return (airtable.Responded sample_response), fresh)
  ∧ ¬ (400 ≤ airtable.status_code sample_response < 600).
Proof.
  apply (request_returns (answering sample_response)). reflexivity.
Defined.

Lemma get_requires_credentials_witness :
  airtable.get timing_out "" "https://airtable.com/appA1/tblB2/viwC3" fresh
  = (Raise (SystemExit 1),
     logged fresh [Output Stderr "Error: Airtable API key and view URL are required"]).
Proof.
  apply (get_requires_credentials timing_out). by left.
Defined.

Lemma get_bad_url_witness :
  ∃ message,
    message ∈ [airtable.msg_format; airtable.msg_parts; airtable.msg_components]
    ∧ airtable.get timing_out "key123" "https://airtable.com/app123/tbl456" fresh
      = (Raise (SystemExit 1), logged fresh [Output Stderr ("Error: " +:+ message)]).
Proof.
  apply (get_bad_url timing_out "key123" "https://airtable.com/app123/tbl456" fresh).
  - discriminate.
  - discriminate.
  - reflexivity.
Defined.

Lemma get_returns_fields_witness :
  airtable.get (answering sample_response) "key123"
    "https://airtable.com/appA1/tblB2/viwC3" fresh
  = (Return [VDict [("Name", VStr "Ada")]], fresh).
Proof.
  apply (get_returns_fields (answering sample_response) "key123"
           "https://airtable.com/appA1/tblB2/viwC3"
           "https://api.airtable.com/v0/appA1/tblB2?view=viwC3" fresh fresh
           sample_response [("records", VList sample_records)] sample_records).
  - discriminate.
  - reflexivity.
  - reflexivity.
  - cbn. lia.
  - reflexivity.
  - reflexivity.
  - repeat constructor.
Defined.

Lemma get_malformed_response_witness :
  airtable.get (answering (airtable.Response 200 "<html>" None)) "key123"
    "https://airtable.com/appA1/tblB2/viwC3" fresh
  = (Raise (SystemExit 1),
     logged fresh
       [Output Stderr "Error: Invalid response from Airtable API. Expected JSON."]).
Proof.
  apply (get_malformed_response (answering (airtable.Response 200 "<html>" None))
           "key123" "https://airtable.com/appA1/tblB2/viwC3"
           "https://api.airtable.com/v0/appA1/tblB2?view=viwC3" fresh fresh
           (airtable.Response 200 "<html>" None)).
  - discriminate.
  - reflexivity.
  - reflexivity.
  - cbn. lia.
  - left. split; reflexivity.
Defined.
